(** * Jakarta traffic bot: the traffic-assessment pipeline

    A shallow embedding of [src/jakarta_traffic_bot.py]: the severity
    classifier, the traffic fetcher, the SQLite history and its rolling
    average, the anomaly comparator, and the handlers that drive them.

    Modelling conventions.
    - A Python [int] is a [Z].  A Python [float] is the rational it denotes
      ([Q]) and float comparison is comparison of rationals; the definitions
      on [Q] compute without rounding.  The module [Binary64] has the
      average and the comparator with the rounding of binary64, for the
      statements about the value of an average, the side of the threshold a
      ratio falls on, and the percentage printed.
    - A Python [str] is a [string].
    - A raised exception is the [Raise] outcome of [Result]; code that
      touches the database, the network or the chat runs in the monad [M],
      which threads the bot's state and records every external call.
    - [datetime.now()] is an instant in microseconds, a [Z]. *)

From Stdlib Require Import ZArith QArith Qround List String Ascii Bool Lia Lqa Permutation.
From Stdlib Require SpecFloat.
Import ListNotations.

Local Open Scope string_scope.
Local Open Scope list_scope.
Local Open Scope Z_scope.

(** ** Python exceptions and results *)

Inductive exn : Type :=
| KeyError (key : string)
| IndexError
| ZeroDivisionError
| OverflowError
| RequestException.

Inductive Result (A : Type) : Type :=
| Ok (a : A)
| Raise (e : exn).
Arguments Ok {A} a.
Arguments Raise {A} e.

Definition rbind {A B} (r : Result A) (k : A -> Result B) : Result B :=
  match r with
  | Ok a => k a
  | Raise e => Raise e
  end.

Declare Scope result_scope.
Delimit Scope result_scope with result.
Notation "'let?' x ':=' c1 'in' c2" := (rbind c1 (fun x => c2))
  (at level 61, x pattern, c1 at next level, right associativity) : result_scope.

(** A dict with string keys, in insertion order; [d[k]] raises [KeyError]. *)
Fixpoint dict_getitem {V} (d : list (string * V)) (k : string) : Result V :=
  match d with
  | [] => Raise (KeyError k)
  | (k', v) :: d' => if String.eqb k' k then Ok v else dict_getitem d' k
  end.

(** [xs[i]] on a list raises [IndexError] out of range. *)
Definition list_getitem {A} (xs : list A) (i : nat) : Result A :=
  match nth_error xs i with
  | Some x => Ok x
  | None => Raise IndexError
  end.

(** True division [a / b]: raises [ZeroDivisionError] on a zero divisor. *)
Definition truediv (a b : Q) : Result Q :=
  if Qeq_bool b 0 then Raise ZeroDivisionError else Ok (a / b)%Q.

(** Truth value of a float: [0.0] is falsy. *)
Definition float_truthy (x : Q) : bool := negb (Qeq_bool x 0).

(** Truth value of [Optional[float]]: [None] and [0.0] are falsy. *)
Definition opt_float_truthy (x : option Q) : bool :=
  match x with
  | Some q => float_truthy q
  | None => false
  end.

(** ** Severity classifier *)

(** [self.severity_thresholds] *)
Definition severity_thresholds : list (string * Q) :=
  [ ("normal",   15 # 100)%Q;
    ("moderate", 30 # 100)%Q;
    ("heavy",    60 # 100)%Q;
    ("severe",   1)%Q ].

(** [calculate_severity(self, increase_ratio)] *)
Definition calculate_severity (increase_ratio : Q) : Result string :=
  (let? t_normal := dict_getitem severity_thresholds "normal" in
   if Qle_bool increase_ratio t_normal then Ok "normal"
   else
     let? t_moderate := dict_getitem severity_thresholds "moderate" in
     if Qle_bool increase_ratio t_moderate then Ok "moderate"
     else
       let? t_heavy := dict_getitem severity_thresholds "heavy" in
       if Qle_bool increase_ratio t_heavy then Ok "heavy"
       else Ok "severe")%result.

(** The order [normal < moderate < heavy < severe] on labels, as a rank;
    a string that is not a label has no rank. *)
Definition severity_rank (label : string) : option nat :=
  if String.eqb label "normal" then Some 0%nat
  else if String.eqb label "moderate" then Some 1%nat
  else if String.eqb label "heavy" then Some 2%nat
  else if String.eqb label "severe" then Some 3%nat
  else None.

Definition is_severity_label (label : string) : Prop :=
  label = "normal" \/ label = "moderate" \/ label = "heavy" \/ label = "severe".

(** [l1 <= l2] in the severity order. *)
Definition severity_le (l1 l2 : string) : Prop :=
  match severity_rank l1, severity_rank l2 with
  | Some a, Some b => (a <= b)%nat
  | _, _ => False
  end.


(** ** Data model *)

(** [@dataclass TrafficData].  [timestamp] is the instant [datetime.now()]
    gave, in microseconds. *)
Record TrafficData : Type := {
  location : string;
  duration_in_traffic : Z;
  duration_normal : Z;
  timestamp : Z;
  severity : string
}.

(** A row of the table [traffic_history]: the [AUTOINCREMENT] key and the
    five inserted columns. *)
Record HistoryRow : Type := {
  id : Z;
  observation : TrafficData
}.

(** The table, rows in insertion order. *)
Definition Table : Type := list HistoryRow.

(** A coordinate dict [{"lat": ..., "lng": ...}].  The program uses a
    coordinate only inside f-strings, so each value is carried as the text
    that [str()] gives for it. *)
Record Dict : Type := {
  lat : string;
  lng : string
}.

(** [self.major_roads], in the dict's insertion order; each road has its two
    end points [coordinates[0]] and [coordinates[1]]. *)
Definition Roads : Type := list (string * (Dict * Dict)).

Definition major_roads : Roads :=
  [ ("Jalan Sudirman",
      ({| lat := "-6.2088"; lng := "106.8456" |}, {| lat := "-6.2297"; lng := "106.8269" |}));
    ("Jalan Thamrin",
      ({| lat := "-6.1944"; lng := "106.8229" |}, {| lat := "-6.2088"; lng := "106.8456" |}));
    ("Jalan Gatot Subroto",
      ({| lat := "-6.2297"; lng := "106.8269" |}, {| lat := "-6.2615"; lng := "106.7942" |}));
    ("Jakarta-Cikampek Toll",
      ({| lat := "-6.1745"; lng := "106.8227" |}, {| lat := "-6.3139"; lng := "107.1614" |}));
    ("Jalan Rasuna Said",
      ({| lat := "-6.2297"; lng := "106.8269" |}, {| lat := "-6.2383"; lng := "106.8411" |})) ].

(** ** The external services *)

(** The first leg of a route: [leg["duration_in_traffic"]["value"]] and
    [leg["duration"]["value"]]; [None] where the key is missing. *)
Record Leg : Type := {
  leg_duration_in_traffic : option Z;
  leg_duration : option Z
}.

Record Route : Type := {
  legs : list Leg
}.

(** The JSON body of a directions response. *)
Record DirectionsJson : Type := {
  status : option string;
  routes : option (list Route)
}.

(** The JSON body of a geocoding response: each result carries
    [result["geometry"]["location"]], [None] where a key is missing. *)
Record GeocodeJson : Type := {
  geo_status : option string;
  geo_results : option (list (option Dict))
}.

(** What [requests.get(...).json()] yields: a body, or an exception. *)
Inductive Http (A : Type) : Type :=
| HttpFailed
| HttpJson (data : A).
Arguments HttpFailed {A}.
Arguments HttpJson {A} data.

(** The world a handler runs in: what each service answers to a request,
    and the clock. *)
Record Env : Type := {
  directions_api : string -> string -> Http DirectionsJson;
  geocode_api : string -> Http GeocodeJson;
  now : Z
}.

Definition opt_getitem {A} (key : string) (field : option A) : Result A :=
  match field with
  | Some v => Ok v
  | None => Raise (KeyError key)
  end.

Definition http_json {A} (r : Http A) : Result A :=
  match r with
  | HttpJson data => Ok data
  | HttpFailed => Raise RequestException
  end.

(** ** Traffic fetcher: the body of the [try] block *)

(** The location key
    [f"{origin['lat']},{origin['lng']}-{destination['lat']},{destination['lng']}"]. *)
Definition location_key (origin destination : Dict) : string :=
  (lat origin ++ "," ++ lng origin ++ "-" ++ lat destination ++ "," ++ lng destination)%string.

Definition coord_param (c : Dict) : string := (lat c ++ "," ++ lng c)%string.

(** From [data = response.json()] to the end of the [try] block.  Falling
    off the [if] returns [None]. *)
Definition traffic_data_of_json (origin destination : Dict) (t_now : Z)
    (data : DirectionsJson) : Result (option TrafficData) :=
  (let? st := opt_getitem "status" (status data) in
   if negb (String.eqb st "OK") then Ok None
   else
     let? rs := opt_getitem "routes" (routes data) in
     match rs with
     | [] => Ok None
     | _ :: _ =>
       let? route0 := list_getitem rs 0 in
       let? route := list_getitem (legs route0) 0 in
       let? dit := opt_getitem "duration_in_traffic" (leg_duration_in_traffic route) in
       let? dn := opt_getitem "duration" (leg_duration route) in
       let? increase_ratio := truediv (inject_Z (dit - dn)) (inject_Z dn) in
       let? sev := calculate_severity increase_ratio in
       Ok (Some {| location := location_key origin destination;
                   duration_in_traffic := dit;
                   duration_normal := dn;
                   timestamp := t_now;
                   severity := sev |})
     end)%result.

(** ** Historical baseline store *)

(** The key [AUTOINCREMENT] gives the next row. *)
Definition next_id (db : Table) : Z :=
  1 + fold_right Z.max 0 (map id db).

(** [store_traffic_data(self, traffic_data)]: one [INSERT]. *)
Definition store_traffic_data (db : Table) (traffic_data : TrafficData) : Table :=
  db ++ [ {| id := next_id db; observation := traffic_data |} ].

(** [timedelta(days=d)] in microseconds. *)
Definition timedelta_days (d : Z) : Z := d * 86400000000.

(** [WHERE location = ? AND timestamp > ?].  Both sides of the comparison
    are the ISO texts of two datetimes, whose text order is their order in
    time. *)
Definition where_location_since (loc : string) (cutoff : Z) (r : HistoryRow) : bool :=
  String.eqb (location (observation r)) loc && (cutoff <? timestamp (observation r)).

Definition Zsum (l : list Z) : Z := fold_right Z.add 0 l.

(** SQL [AVG] over the selected values: [NULL] over no rows.  The value is
    the exact quotient; [Binary64.sql_avg] is the double SQLite returns. *)
Definition sql_avg (vals : list Z) : option Q :=
  match vals with
  | [] => None
  | _ :: _ => Some (inject_Z (Zsum vals) / inject_Z (Z.of_nat (List.length vals)))%Q
  end.

(** [SELECT AVG(duration_in_traffic) FROM traffic_history
     WHERE location = ? AND timestamp > ?]: the one column of the one row
    the query returns. *)
Definition select_avg_duration (db : Table) (loc : string) (cutoff : Z) : option Q :=
  sql_avg (map (fun r => duration_in_traffic (observation r))
               (filter (where_location_since loc cutoff) db)).

(** [get_historical_average(self, location, days_back=30)] *)
Definition get_historical_average (db : Table) (t_now : Z) (loc : string)
    (days_back : Z) : option Q :=
  let cutoff_date := t_now - timedelta_days days_back in
  let result0 := select_avg_duration db loc cutoff_date in
  if opt_float_truthy result0 then result0 else None.

(** Recording a sequence of Observations, one [store_traffic_data] each. *)
Definition record_all (db : Table) (obs : list TrafficData) : Table :=
  fold_left store_traffic_data obs db.

(** The arithmetic mean of a list of durations, as the specification words
    it: their sum over their number. *)
Definition arithmetic_mean (durations : list Z) : Q :=
  (inject_Z (Zsum durations) / inject_Z (Z.of_nat (List.length durations)))%Q.

(** ** Anomaly comparator *)

(** Round to the nearest integer, ties to even. *)
Definition round_half_even (x : Q) : Z :=
  let f := Qfloor x in
  match (x - inject_Z f ?= 1 # 2)%Q with
  | Lt => f
  | Gt => f + 1
  | Eq => if Z.even f then f else f + 1
  end.

Definition digit_char (d : Z) : ascii := ascii_of_nat (48 + Z.to_nat d).

(** Decimal digits of [n >= 0], most significant first, on top of [acc]. *)
Fixpoint digits_fuel (fuel : nat) (n : Z) (acc : string) : string :=
  match fuel with
  | O => acc
  | S fuel' =>
    let acc' := String (digit_char (n mod 10)) acc in
    if n / 10 =? 0 then acc' else digits_fuel fuel' (n / 10) acc'
  end.

Definition str_of_nonneg (n : Z) : string :=
  digits_fuel (S (Z.to_nat (Z.log2 n))) n EmptyString.

(** [f"{x:.1f}"]: fixed point with one decimal. *)
Definition format_fixed_1 (x : Q) : string :=
  let tenths := round_half_even (x * 10) in
  let a := Z.abs tenths in
  let sign := if tenths <? 0 then "-" else EmptyString in
  (sign ++ str_of_nonneg (a / 10) ++ "." ++ str_of_nonneg (a mod 10))%string.

(** [f"{x:.1%}"]: the value times 100, with one decimal and a percent sign,
    for an exact value; [Binary64.format_percent_1] is the text for a
    float. *)
Definition format_percent_1 (x : Q) : string :=
  (format_fixed_1 (x * 100) ++ "%")%string.

(** [is_traffic_unusual(self, current_duration, location)].  The guard
    [if not historical_avg] is the first test; the [None] branch of the
    match below it is never reached, [None] being falsy. *)
Definition is_traffic_unusual (db : Table) (t_now : Z) (current_duration : Z)
    (loc : string) : Result (bool * string) :=
  let historical_avg := get_historical_average db t_now loc 30 in
  if negb (opt_float_truthy historical_avg) then
    Ok (false, "No historical data available")
  else
    match historical_avg with
    | None => Ok (false, "No historical data available")
    | Some h =>
      (let? increase_ratio := truediv (inject_Z current_duration - h) h in
       if negb (Qle_bool increase_ratio (5 # 10)) then
         Ok (true, ("Traffic is " ++ format_percent_1 increase_ratio ++ " higher than usual")%string)
       else
         Ok (false, "Traffic is within normal range"))%result
    end.

(** ** The bot's state and the monad of its handlers *)

(** One entry of the report of [/traffic]. *)
Record ReportEntry : Type := {
  entry_road : string;
  entry_severity : string;
  entry_duration_mins : Z;
  entry_normal_mins : Z;
  entry_unusual : option string
}.

(** The texts the bot sends, each with the values interpolated in it. *)
Inductive Message : Type :=
| MsgWelcome
| MsgCheckingTraffic
| MsgTrafficReport (entries : list ReportEntry)
| MsgLocationReceived (loc : Dict)
| MsgShareLocationFirst
| MsgDestinationNotFound
| MsgRouteInformation (destination severity_title : string)
    (duration_mins normal_mins : Z) (unusual : option string)
| MsgRouteUnavailable
| MsgStatistics (total avg_mins severe : Z) (severe_percentage : string)
| MsgNoStatistics.

(** What a handler does to the outside, in the order it does it. *)
Inductive Event : Type :=
| EvDirections (origin destination : string)
| EvGeocode (address : string)
| EvReply (msg : Message)
| EvLogInfo (text : string)
| EvLogError (text : string) (e : exn).

(** [traffic_history] is the database table, [user_data] is
    [context.user_data] of the chat at hand. *)
Record BotState : Type := {
  traffic_history : Table;
  user_data : list (string * Dict);
  trace : list Event
}.

Definition M (A : Type) : Type := Env -> BotState -> Result A * BotState.

Definition ret {A} (a : A) : M A := fun _ s => (Ok a, s).

Definition bind {A B} (c : M A) (k : A -> M B) : M B :=
  fun env s =>
    match c env s with
    | (Ok a, s') => k a env s'
    | (Raise e, s') => (Raise e, s')
    end.

Declare Scope bot_scope.
Delimit Scope bot_scope with bot.
Notation "x <- c1 ;; c2" := (bind c1 (fun x => c2))
  (at level 100, c1 at next level, right associativity) : bot_scope.
Notation "' pat <- c1 ;; c2" := (bind c1 (fun x => match x with pat => c2 end))
  (at level 100, pat pattern, c1 at next level, right associativity) : bot_scope.
Notation "c1 ;; c2" := (bind c1 (fun _ => c2))
  (at level 100, right associativity) : bot_scope.
Local Open Scope bot_scope.

Definition lift_result {A} (r : Result A) : M A := fun _ s => (r, s).

(** [try: body except Exception as e: handler e] *)
Definition try_except {A} (body : M A) (handler : exn -> M A) : M A :=
  fun env s =>
    match body env s with
    | (Ok a, s') => (Ok a, s')
    | (Raise e, s') => handler e env s'
    end.

Definition emit (ev : Event) : M unit :=
  fun _ s =>
    (Ok tt, {| traffic_history := traffic_history s;
               user_data := user_data s;
               trace := trace s ++ [ev] |}).

Definition datetime_now : M Z := fun env s => (Ok (now env), s).

Definition read_history : M Table := fun _ s => (Ok (traffic_history s), s).

Definition write_history (f : Table -> Table) : M unit :=
  fun _ s =>
    (Ok tt, {| traffic_history := f (traffic_history s);
               user_data := user_data s;
               trace := trace s |}).

Definition read_user_data : M (list (string * Dict)) :=
  fun _ s => (Ok (user_data s), s).

Definition write_user_data (f : list (string * Dict) -> list (string * Dict)) : M unit :=
  fun _ s =>
    (Ok tt, {| traffic_history := traffic_history s;
               user_data := f (user_data s);
               trace := trace s |}).

(** [requests.get(url, params).json()] on the directions service. *)
Definition requests_get_directions (origin destination : string) : M DirectionsJson :=
  emit (EvDirections origin destination) ;;
  fun env s => (http_json (directions_api env origin destination), s).

(** [requests.get(url, params).json()] on the geocoding service. *)
Definition requests_get_geocode (address : string) : M GeocodeJson :=
  emit (EvGeocode address) ;;
  fun env s => (http_json (geocode_api env address), s).

Definition reply_text (msg : Message) : M unit := emit (EvReply msg).
Definition logger_info (text : string) : M unit := emit (EvLogInfo text).
Definition logger_error (text : string) (e : exn) : M unit := emit (EvLogError text e).

(** [for x in xs: body x] *)
Fixpoint for_each {A} (xs : list A) (body : A -> M unit) : M unit :=
  match xs with
  | [] => ret tt
  | x :: xs' => body x ;; for_each xs' body
  end.

(** A [for] loop that updates a local variable [acc]. *)
Fixpoint for_each_acc {A S} (xs : list A) (acc : S) (body : A -> S -> M S) : M S :=
  match xs with
  | [] => ret acc
  | x :: xs' => acc' <- body x acc ;; for_each_acc xs' acc' body
  end.

(** ** The methods that reach the outside *)

(** [get_traffic_data(self, origin, destination)] *)
Definition get_traffic_data (origin destination : Dict) : M (option TrafficData) :=
  try_except
    (data <- requests_get_directions (coord_param origin) (coord_param destination) ;;
     t_now <- datetime_now ;;
     lift_result (traffic_data_of_json origin destination t_now data))
    (fun e => logger_error "Error getting traffic data" e ;; ret None).

(** The call [self.store_traffic_data(traffic_data)] *)
Definition call_store_traffic_data (traffic_data : TrafficData) : M unit :=
  write_history (fun db => store_traffic_data db traffic_data).

(** The call [self.is_traffic_unusual(current_duration, location)] *)
Definition call_is_traffic_unusual (current_duration : Z) (loc : string)
  : M (bool * string) :=
  db <- read_history ;;
  t_now <- datetime_now ;;
  lift_result (is_traffic_unusual db t_now current_duration loc).

(** [collect_traffic_data(self)], over [roads = self.major_roads] *)
Definition collect_traffic_data (roads : Roads) : M unit :=
  logger_info "Collecting traffic data for major roads..." ;;
  for_each roads (fun '(road_name, (c0, c1)) =>
    traffic_data <- get_traffic_data c0 c1 ;;
    match traffic_data with
    | Some td =>
      call_store_traffic_data td ;;
      logger_info ("Stored traffic data for " ++ road_name)%string
    | None => ret tt
    end).

(** [geocode_address(self, address)] *)
Definition geocode_address (address : string) : M (option Dict) :=
  try_except
    (data <- requests_get_geocode (address ++ ", Jakarta, Indonesia")%string ;;
     st <- lift_result (opt_getitem "status" (geo_status data)) ;;
     if negb (String.eqb st "OK") then ret None
     else
       rs <- lift_result (opt_getitem "results" (geo_results data)) ;;
       match rs with
       | [] => ret None
       | _ :: _ =>
         r0 <- lift_result (list_getitem rs 0) ;;
         loc <- lift_result (opt_getitem "geometry" r0) ;;
         ret (Some {| lat := lat loc; lng := lng loc |})
       end)
    (fun e => logger_error "Geocoding error" e ;; ret None).

Definition dict_contains {V} (d : list (string * V)) (k : string) : bool :=
  existsb (fun kv => String.eqb (fst kv) k) d.

(** [d[k] = v]: replaces the value of an existing key, else adds the key
    at the end. *)
Fixpoint dict_setitem {V} (d : list (string * V)) (k : string) (v : V)
  : list (string * V) :=
  match d with
  | [] => [(k, v)]
  | (k', v') :: d' =>
    if String.eqb k' k then (k, v) :: d' else (k', v') :: dict_setitem d' k v
  end.

Definition is_upper (c : ascii) : bool :=
  let n := nat_of_ascii c in (65 <=? n)%nat && (n <=? 90)%nat.
Definition is_lower (c : ascii) : bool :=
  let n := nat_of_ascii c in (97 <=? n)%nat && (n <=? 122)%nat.
Definition to_upper (c : ascii) : ascii :=
  if is_lower c then ascii_of_nat (nat_of_ascii c - 32) else c.
Definition to_lower (c : ascii) : ascii :=
  if is_upper c then ascii_of_nat (nat_of_ascii c + 32) else c.

(** [str.title()] on ASCII text: a letter after a non-letter goes to upper
    case, a letter after a letter to lower case. *)
Fixpoint title_from (prev_cased : bool) (s : string) : string :=
  match s with
  | EmptyString => EmptyString
  | String c s' =>
    let cased := is_upper c || is_lower c in
    let c' := if cased then (if prev_cased then to_lower c else to_upper c) else c in
    String c' (title_from cased s')
  end.

Definition title (s : string) : string := title_from false s.

(** [handle_location(self, update, context)], for the shared location
    [loc]. *)
Definition handle_location (loc : Dict) : M unit :=
  write_user_data (fun ud => dict_setitem ud "user_location" loc) ;;
  reply_text (MsgLocationReceived loc).

(** [handle_text(self, update, context)], for [text = update.message.text]. *)
Definition handle_text (text : string) : M unit :=
  ud <- read_user_data ;;
  if negb (dict_contains ud "user_location") then
    reply_text MsgShareLocationFirst
  else
    destination <- geocode_address text ;;
    match destination with
    | None => reply_text MsgDestinationNotFound
    | Some dest =>
      origin <- lift_result (dict_getitem ud "user_location") ;;
      traffic_data <- get_traffic_data origin dest ;;
      match traffic_data with
      | Some td =>
        let duration_mins := duration_in_traffic td / 60 in
        let normal_mins := duration_normal td / 60 in
        '(is_unusual, unusual_msg) <-
          call_is_traffic_unusual (duration_in_traffic td) (location td) ;;
        reply_text (MsgRouteInformation text (title (severity td))
                      duration_mins normal_mins
                      (if is_unusual : bool then Some unusual_msg else None)) ;;
        call_store_traffic_data td
      | None => reply_text MsgRouteUnavailable
      end
    end.

(** [traffic_command(self, update, context)], over [roads = self.major_roads] *)
Definition traffic_command (roads : Roads) : M unit :=
  reply_text MsgCheckingTraffic ;;
  traffic_report <-
    for_each_acc roads [] (fun '(road_name, (c0, c1)) report =>
      traffic_data <- get_traffic_data c0 c1 ;;
      match traffic_data with
      | Some td =>
        call_store_traffic_data td ;;
        '(is_unusual, unusual_msg) <-
          call_is_traffic_unusual (duration_in_traffic td) (location td) ;;
        ret (report ++
             [ {| entry_road := road_name;
                  entry_severity := severity td;
                  entry_duration_mins := duration_in_traffic td / 60;
                  entry_normal_mins := duration_normal td / 60;
                  entry_unusual := if is_unusual : bool then Some unusual_msg else None |} ])
      | None => ret report
      end) ;;
  reply_text (MsgTrafficReport traffic_report).

(** [int(x)] on a float: truncation towards zero. *)
Definition py_int (x : Q) : Z :=
  if Qle_bool 0 x then Qfloor x else Qceiling x.

(** The cut-off [datetime('now', '-7 days')] of the statistics query.
    [sqlite_now] is what SQLite's own clock reads when the query runs: the
    UTC wall clock, in whole seconds.  The cut-off is the text of that clock
    seven days earlier, without a fraction; the stored timestamps are the
    texts of Python's local wall clock, with their microseconds.  Comparing
    these texts is comparing them as numbers of microseconds. *)
Definition sqlite_cutoff (sqlite_now : Z) : Z :=
  sqlite_now * 1000000 - timedelta_days 7.

(** [stats_command(self, update, context)], run when SQLite's clock reads
    [sqlite_now]. *)
Definition stats_command (sqlite_now : Z) : M unit :=
  db <- read_history ;;
  let week := filter (fun r => sqlite_cutoff sqlite_now <? timestamp (observation r)) db in
  let total := Z.of_nat (List.length week) in
  let avg := sql_avg (map (fun r => duration_in_traffic (observation r)) week) in
  let severe_count :=
    Z.of_nat (List.length
      (filter (fun r => String.eqb (severity (observation r)) "severe") week)) in
  if 0 <? total then
    let avg_mins :=
      match avg with
      | Some a => if float_truthy a then py_int (a / 60) else 0
      | None => 0
      end in
    let severe_percentage := (inject_Z severe_count / inject_Z total * 100)%Q in
    reply_text (MsgStatistics total avg_mins severe_count
                  (format_fixed_1 severe_percentage))
  else
    reply_text MsgNoStatistics.

(** [start_command(self, update, context)] *)
Definition start_command : M unit := reply_text MsgWelcome.

(** ** The system: what can happen to a running bot *)

Inductive Op : Type :=
| OpStart
| OpTraffic
| OpStats (sqlite_now : Z)
| OpLocation (loc : Dict)
| OpText (text : string)
| OpSweep.

Definition run_op (op : Op) : M unit :=
  match op with
  | OpStart => start_command
  | OpTraffic => traffic_command major_roads
  | OpStats sqlite_now => stats_command sqlite_now
  | OpLocation loc => handle_location loc
  | OpText text => handle_text text
  | OpSweep => collect_traffic_data major_roads
  end.

(** The state after a run of operations, each in the world it meets; an
    exception that leaves a handler ends that handler only.  The operations
    are taken one after the other: the thread of the sweep and the awaits
    inside a handler are not interleaved here. *)
Fixpoint run_ops (ops : list (Op * Env)) (s : BotState) : BotState :=
  match ops with
  | [] => s
  | (op, env) :: ops' => run_ops ops' (snd (run_op op env s))
  end.

Definition initial_state : BotState :=
  {| traffic_history := []; user_data := []; trace := [] |}.

(** ** Definitions used to state the properties *)

(** The cascade of comparisons of the classifier, thresholds looked up. *)
Definition band (r : Q) : string :=
  if Qle_bool r (15 # 100) then "normal"
  else if Qle_bool r (30 # 100) then "moderate"
  else if Qle_bool r (60 # 100) then "heavy"
  else "severe".

(** The query sees only the inserted columns of each row. *)
Definition qualifies (loc : string) (cutoff : Z) (o : TrafficData) : bool :=
  String.eqb (location o) loc && (cutoff <? timestamp o).

(** An Observation of the first monitored road. *)
Definition sample_observation (dit : Z) (t : Z) : TrafficData :=
  {| location := "-6.2088,106.8456--6.2297,106.8269";
     duration_in_traffic := dit;
     duration_normal := 900;
     timestamp := t;
     severity := "normal" |}.

(** The text of the unusual-traffic answer. *)
Definition unusual_message (ratio : Q) : string :=
  ("Traffic is " ++ format_percent_1 ratio ++ " higher than usual")%string.

(** A table with one Observation of 100 seconds. *)
Definition history_100 : Table :=
  record_all [] [sample_observation 100 10].

(** What the [try] block of [get_traffic_data] comes to in the world
    [env]: the parsed answer of the directions service. *)
Definition fetch_outcome (env : Env) (origin destination : Dict)
  : Result (option TrafficData) :=
  (let? data := http_json (directions_api env (coord_param origin) (coord_param destination)) in
   traffic_data_of_json origin destination (now env) data)%result.

(** What [get_traffic_data] returns in the world [env]. *)
Definition fetched (env : Env) (origin destination : Dict) : option TrafficData :=
  match fetch_outcome env origin destination with
  | Ok v => v
  | Raise _ => None
  end.

(** What [get_traffic_data] does to the outside in the world [env]. *)
Definition fetch_events (env : Env) (origin destination : Dict) : list Event :=
  EvDirections (coord_param origin) (coord_param destination)
  :: match fetch_outcome env origin destination with
     | Ok _ => []
     | Raise e => [EvLogError "Error getting traffic data" e]
     end.

Definition add_events (s : BotState) (evs : list Event) : BotState :=
  {| traffic_history := traffic_history s;
     user_data := user_data s;
     trace := trace s ++ evs |}.

Definition set_history (s : BotState) (db : Table) : BotState :=
  {| traffic_history := db;
     user_data := user_data s;
     trace := trace s |}.

(** The Observations a sweep over [roads] obtains, in the order of the
    roads; a road whose fetch fails gives none. *)
Definition road_observations (env : Env) (roads : Roads) : list TrafficData :=
  flat_map (fun road : string * (Dict * Dict) =>
              match fetched env (fst (snd road)) (snd (snd road)) with
              | Some td => [td]
              | None => []
              end) roads.

(** The roads of a sweep whose fetch fails. *)
Definition failed_roads (env : Env) (roads : Roads) : Roads :=
  filter (fun road : string * (Dict * Dict) =>
            match fetched env (fst (snd road)) (snd (snd road)) with
            | Some _ => false
            | None => true
            end) roads.

(** The directions requests in a trace, in order. *)
Definition directions_requests (tr : list Event) : list (string * string) :=
  flat_map (fun ev => match ev with
                      | EvDirections o d => [(o, d)]
                      | _ => []
                      end) tr.

Definition road_request (road : string * (Dict * Dict)) : string * string :=
  (coord_param (fst (snd road)), coord_param (snd (snd road))).

(** The calls to the outside in a trace: directions and geocoding requests. *)
Definition external_calls (tr : list Event) : list Event :=
  filter (fun ev => match ev with
                    | EvDirections _ _ | EvGeocode _ => true
                    | _ => false
                    end) tr.

(** A directions answer with status OK and one route of one leg. *)
Definition ok_response (dit dn : Z) : DirectionsJson :=
  {| status := Some "OK";
     routes := Some [ {| legs := [ {| leg_duration_in_traffic := Some dit;
                                      leg_duration := Some dn |} ] |} ] |}.

(** A world whose directions service gives the same answer to every
    request, whose geocoder is down, at the instant 1000. *)
Definition constant_env (answer : Http DirectionsJson) : Env :=
  {| directions_api := fun _ _ => answer;
     geocode_api := fun _ => HttpFailed;
     now := 1000 |}.

Definition sudirman_origin : Dict := {| lat := "-6.2088"; lng := "106.8456" |}.
Definition sudirman_destination : Dict := {| lat := "-6.2297"; lng := "106.8269" |}.

(** A world in which the directions service fails for every request that
    starts at the origin of Jalan Thamrin and answers all others. *)
Definition thamrin_down_env : Env :=
  {| directions_api := fun origin _ =>
       if String.eqb origin "-6.1944,106.8229" then HttpFailed
       else HttpJson (ok_response 1200 900);
     geocode_api := fun _ => HttpFailed;
     now := 1000 |}.

Definition jalan_thamrin : string * (Dict * Dict) :=
  ("Jalan Thamrin",
    ({| lat := "-6.1944"; lng := "106.8229" |}, {| lat := "-6.2088"; lng := "106.8456" |})).

(** The table of [s'] is the table of [s] with rows added at the end. *)
Definition history_extends (s s' : BotState) : Prop :=
  exists rows, traffic_history s' = traffic_history s ++ rows.

(** A computation that, whatever it returns or raises, only adds rows at
    the end of the table. *)
Definition appends {A} (c : M A) : Prop :=
  forall env s, history_extends s (snd (c env s)).

(** A bot with one stored Observation and no origin supplied yet. *)
Definition history_state : BotState :=
  {| traffic_history := history_100; user_data := []; trace := [] |}.

(** A bot whose user has shared the origin of Jalan Sudirman. *)
Definition located_state : BotState :=
  {| traffic_history := history_100;
     user_data := [("user_location", sudirman_origin)];
     trace := [] |}.

(** ** Definitions used to state the further properties *)

(** What the [try] block of [geocode_address] comes to in the world [env]. *)
Definition geocode_outcome (env : Env) (address : string) : Result (option Dict) :=
  (let? data := http_json (geocode_api env (address ++ ", Jakarta, Indonesia")%string) in
   let? st := opt_getitem "status" (geo_status data) in
   if negb (String.eqb st "OK") then Ok None
   else
     let? rs := opt_getitem "results" (geo_results data) in
     match rs with
     | [] => Ok None
     | r0 :: _ =>
       let? loc := opt_getitem "geometry" r0 in
       Ok (Some {| lat := lat loc; lng := lng loc |})
     end)%result.

(** What [geocode_address] returns in the world [env]. *)
Definition geocoded (env : Env) (address : string) : option Dict :=
  match geocode_outcome env address with
  | Ok v => v
  | Raise _ => None
  end.

(** What [geocode_address] does to the outside in the world [env]. *)
Definition geocode_events (env : Env) (address : string) : list Event :=
  EvGeocode (address ++ ", Jakarta, Indonesia")%string
  :: match geocode_outcome env address with
     | Ok _ => []
     | Raise e => [EvLogError "Geocoding error" e]
     end.

(** The replies in a trace, in order. *)
Definition replies (tr : list Event) : list Message :=
  flat_map (fun ev => match ev with
                      | EvReply msg => [msg]
                      | _ => []
                      end) tr.

(** The warning a handler shows for the Observation [td] against the table
    [db]: the text of [is_traffic_unusual] when its flag is set. *)
Definition unusual_note (db : Table) (t_now : Z) (td : TrafficData) : option string :=
  match is_traffic_unusual db t_now (duration_in_traffic td) (location td) with
  | Ok (true, msg) => Some msg
  | _ => None
  end.

(** The entries of the report of [/traffic] over [roads], from the table
    [db]: each successful road is stored first and compared next. *)
Fixpoint traffic_report_entries (env : Env) (roads : Roads) (db : Table)
  : list ReportEntry :=
  match roads with
  | [] => []
  | (road_name, (c0, c1)) :: roads' =>
    match fetched env c0 c1 with
    | Some td =>
      let db' := store_traffic_data db td in
      {| entry_road := road_name;
         entry_severity := severity td;
         entry_duration_mins := duration_in_traffic td / 60;
         entry_normal_mins := duration_normal td / 60;
         entry_unusual := unusual_note db' (now env) td |}
      :: traffic_report_entries env roads' db'
    | None => traffic_report_entries env roads' db
    end
  end.

(** The names of the roads of a sweep whose fetch succeeds, in order. *)
Definition successful_road_names (env : Env) (roads : Roads) : list string :=
  flat_map (fun road : string * (Dict * Dict) =>
              match fetched env (fst (snd road)) (snd (snd road)) with
              | Some _ => [fst road]
              | None => []
              end) roads.

(** What every Observation the fetcher builds satisfies. *)
Definition well_formed_observation (td : TrafficData) : Prop :=
  duration_normal td <> 0 /\
  is_severity_label (severity td) /\
  calculate_severity
    (inject_Z (duration_in_traffic td - duration_normal td)
     / inject_Z (duration_normal td))
  = Ok (severity td).

(** The keys of a table are 1, 2, ..., n in the order of insertion. *)
Definition ids_sequential (db : Table) : Prop :=
  map id db = map Z.of_nat (seq 1 (List.length db)).

(** A directions answer with the given status and routes. *)
Definition directions_answer (st : option string) (rs : option (list Route))
  : DirectionsJson :=
  {| status := st; routes := rs |}.

(** A world whose geocoder resolves every address to [dest] and whose
    directions service gives the same answer to every request. *)
Definition resolving_env (dest : Dict) (answer : Http DirectionsJson) : Env :=
  {| directions_api := fun _ _ => answer;
     geocode_api := fun _ =>
       HttpJson {| geo_status := Some "OK"; geo_results := Some [Some dest] |};
     now := 1000 |}.

(** The reply of [handle_text] to a route that was fetched, with the
    warning taken against the table [db]. *)
Definition route_reply (text : string) (db : Table) (t_now : Z) (td : TrafficData)
  : Message :=
  MsgRouteInformation text (title (severity td))
    (duration_in_traffic td / 60) (duration_normal td / 60)
    (unusual_note db t_now td).

(** The key of the Observations of a road. *)
Definition road_key (road : string * (Dict * Dict)) : string :=
  location_key (fst (snd road)) (snd (snd road)).

(** No row of the table for the key [loc] is inside the 30-day window. *)
Definition no_recent_row (db : Table) (t_now : Z) (loc : string) : Prop :=
  forall r, In r db -> location (observation r) = loc ->
            ~ (t_now - timedelta_days 30 < timestamp (observation r)).

(** What a sweep does to the outside for each road: the fetch, then the
    line for a stored row. *)
Definition sweep_events (env : Env) (roads : Roads) : list Event :=
  flat_map (fun road : string * (Dict * Dict) =>
              fetch_events env (fst (snd road)) (snd (snd road))
              ++ match fetched env (fst (snd road)) (snd (snd road)) with
                 | Some _ => [EvLogInfo ("Stored traffic data for " ++ fst road)%string]
                 | None => []
                 end) roads.

(** The lines logged at level info in a trace, in order. *)
Definition info_logs (tr : list Event) : list string :=
  flat_map (fun ev => match ev with
                      | EvLogInfo text => [text]
                      | _ => []
                      end) tr.

(** The exceptions logged at level error in a trace, in order. *)
Definition error_logs (tr : list Event) : list exn :=
  flat_map (fun ev => match ev with
                      | EvLogError _ e => [e]
                      | _ => []
                      end) tr.

(** The row is selected by the query of [stats_command] when SQLite's clock
    reads [sqlite_now]. *)
Definition in_last_week (sqlite_now : Z) (r : HistoryRow) : bool :=
  sqlite_cutoff sqlite_now <? timestamp (observation r).

Definition is_severe (r : HistoryRow) : bool :=
  String.eqb (severity (observation r)) "severe".

(** What the code keeps true of the table. *)
Definition table_invariant (db : Table) : Prop :=
  ids_sequential db /\ Forall well_formed_observation (map observation db).

(** ** Binary64 arithmetic

    The average and the comparator once more, with the arithmetic the
    program runs on: IEEE 754 binary64, rounding to nearest with ties to
    even, as [SpecFloat] defines it on integers.  The definitions above
    take every float for the rational it would be without rounding; they
    serve where rounding cannot change what is stated.  These serve where
    the value of a float is itself what is stated. *)
Module Binary64.

(** A Python [float], and a C [double] of SQLite. *)
Definition float : Type := SpecFloat.spec_float.

Definition prec : Z := 53.
Definition emax : Z := 1024.

(** The float nearest to the integer [z]; an infinity beyond the range. *)
Definition nearest (z : Z) : float := SpecFloat.binary_normalize prec emax z 0 false.

(** The conversion of an [int] operand in [int - float]: it raises
    [OverflowError] for an integer beyond the range of a float. *)
Definition float_of_int (z : Z) : Result float :=
  match nearest z with
  | SpecFloat.S754_infinity _ => Raise OverflowError
  | f => Ok f
  end.

(** The literals [0.5] and [100.0]. *)
Definition half : float := SpecFloat.S754_finite false 4503599627370496 (-53).
Definition hundred : float := SpecFloat.S754_finite false 7036874417766400 (-46).

Definition sub (a b : float) : float := SpecFloat.SFsub prec emax a b.
Definition mul (a b : float) : float := SpecFloat.SFmul prec emax a b.
Definition div (a b : float) : float := SpecFloat.SFdiv prec emax a b.

(** [a > b] *)
Definition gt (a b : float) : bool := SpecFloat.SFltb b a.

(** Truth value of a float: [x != 0.0]. *)
Definition float_truthy (x : float) : bool :=
  negb (SpecFloat.SFeqb x (SpecFloat.S754_zero false)).

Definition opt_float_truthy (x : option float) : bool :=
  match x with
  | Some f => float_truthy f
  | None => false
  end.

(** True division of floats: [ZeroDivisionError] on a zero divisor. *)
Definition truediv (a b : float) : Result float :=
  if SpecFloat.SFeqb b (SpecFloat.S754_zero false) then Raise ZeroDivisionError
  else Ok (div a b).

(** SQL [AVG] over integers: [NULL] over no rows, else the integer sum
    converted to a double, divided by the count converted to a double, as
    SQLite computes it while the sum fits its 64-bit integer. *)
Definition sql_avg (vals : list Z) : option float :=
  match vals with
  | [] => None
  | _ :: _ => Some (div (nearest (Zsum vals)) (nearest (Z.of_nat (List.length vals))))
  end.

Definition select_avg_duration (db : Table) (loc : string) (cutoff : Z) : option float :=
  sql_avg (map (fun r => duration_in_traffic (observation r))
               (filter (where_location_since loc cutoff) db)).

(** [get_historical_average(self, location, days_back=30)] *)
Definition get_historical_average (db : Table) (t_now : Z) (loc : string)
    (days_back : Z) : option float :=
  let cutoff_date := t_now - timedelta_days days_back in
  let result0 := select_avg_duration db loc cutoff_date in
  if opt_float_truthy result0 then result0 else None.

(** The magnitude of a finite float, as the rational it is. *)
Definition magnitude (m : positive) (e : Z) : Q :=
  match e with
  | Z0 => inject_Z (Zpos m)
  | Zpos p => inject_Z (Zpos m * 2 ^ Zpos p)
  | Zneg p => Zpos m # (2 ^ p)
  end.

(** The digits of [f"{x:.1f}"] for a magnitude: the decimal with one
    fractional digit nearest to it, ties to even. *)
Definition fixed_1_digits (x : Q) : string :=
  let tenths := round_half_even (x * 10) in
  (str_of_nonneg (tenths / 10) ++ "." ++ str_of_nonneg (tenths mod 10))%string.

(** [f"{x:.1f}"] *)
Definition format_fixed_1 (x : float) : string :=
  match x with
  | SpecFloat.S754_nan => "nan"
  | SpecFloat.S754_infinity s => if s then "-inf" else "inf"
  | SpecFloat.S754_zero s => if s then "-0.0" else "0.0"
  | SpecFloat.S754_finite s m e =>
    ((if s then "-" else EmptyString) ++ fixed_1_digits (magnitude m e))%string
  end.

(** [f"{x:.1%}"]: the float times 100, itself a float, with one decimal
    and a percent sign. *)
Definition format_percent_1 (x : float) : string :=
  (format_fixed_1 (mul x hundred) ++ "%")%string.

(** [is_traffic_unusual(self, current_duration, location)] *)
Definition is_traffic_unusual (db : Table) (t_now : Z) (current_duration : Z)
    (loc : string) : Result (bool * string) :=
  let historical_avg := get_historical_average db t_now loc 30 in
  if negb (opt_float_truthy historical_avg) then
    Ok (false, "No historical data available")
  else
    match historical_avg with
    | None => Ok (false, "No historical data available")
    | Some h =>
      (let? c := float_of_int current_duration in
       let? increase_ratio := truediv (sub c h) h in
       if gt increase_ratio half then
         Ok (true, ("Traffic is " ++ format_percent_1 increase_ratio ++ " higher than usual")%string)
       else
         Ok (false, "Traffic is within normal range"))%result
    end.

(** The arithmetic mean of a list of durations as a float: their sum over
    their number. *)
Definition arithmetic_mean (durations : list Z) : float :=
  div (nearest (Zsum durations)) (nearest (Z.of_nat (List.length durations))).

(** The result for a mean [m]: a zero mean is returned as [None]. *)
Definition mean_or_none (m : float) : option float :=
  if float_truthy m then Some m else None.

End Binary64.

(** A table with the three Observations of 300, 302 and 302 seconds. *)
Definition history_300_302_302 : Table :=
  record_all [] [sample_observation 300 10; sample_observation 302 11;
                 sample_observation 302 12].

(** A table with one Observation of 400 seconds. *)
Definition history_400 : Table :=
  record_all [] [sample_observation 400 10].

(** * Properties *)

(** ** Severity classifier *)

(** The three dict lookups never raise: the classifier is the cascade of
    comparisons. *)
Lemma calculate_severity_band (r : Q) : calculate_severity r = Ok (band r).
Proof.
  unfold calculate_severity, band; cbn.
  destruct (Qle_bool r (15 # 100)); [reflexivity|].
  destruct (Qle_bool r (30 # 100)); [reflexivity|].
  destruct (Qle_bool r (60 # 100)); reflexivity.
Qed.

Lemma band_is_label (r : Q) : is_severity_label (band r).
Proof.
  unfold band, is_severity_label.
  destruct (Qle_bool r (15 # 100)); [tauto|].
  destruct (Qle_bool r (30 # 100)); [tauto|].
  destruct (Qle_bool r (60 # 100)); tauto.
Qed.

Ltac qcmp := unfold Qle, Qlt; simpl; lia.

Lemma Qle_bool_false_lt (x y : Q) : Qle_bool x y = false -> (y < x)%Q.
Proof.
  intros H. apply Qnot_le_lt. intros Hle.
  apply Qle_bool_iff in Hle. congruence.
Qed.

Lemma Qle_bool_mono (x y c : Q) :
  (x <= y)%Q -> Qle_bool y c = true -> Qle_bool x c = true.
Proof.
  intros Hxy Hy. apply Qle_bool_iff. apply Qle_bool_iff in Hy.
  eapply Qle_trans; eassumption.
Qed.

Lemma band_monotone (r1 r2 : Q) :
  (r1 <= r2)%Q -> severity_le (band r1) (band r2).
Proof.
  intros Hle. unfold band.
  destruct (Qle_bool r2 (15 # 100)) eqn:E1.
  { rewrite (Qle_bool_mono _ _ _ Hle E1). cbv. lia. }
  destruct (Qle_bool r2 (30 # 100)) eqn:E2.
  { destruct (Qle_bool r1 (15 # 100)); [cbv; lia|].
    rewrite (Qle_bool_mono _ _ _ Hle E2). cbv. lia. }
  destruct (Qle_bool r2 (60 # 100)) eqn:E3.
  { destruct (Qle_bool r1 (15 # 100)); [cbv; lia|].
    destruct (Qle_bool r1 (30 # 100)); [cbv; lia|].
    rewrite (Qle_bool_mono _ _ _ Hle E3). cbv. lia. }
  destruct (Qle_bool r1 (15 # 100)); [cbv; lia|].
  destruct (Qle_bool r1 (30 # 100)); [cbv; lia|].
  destruct (Qle_bool r1 (60 # 100)); cbv; lia.
Qed.

Lemma band_le_015 (r : Q) : (r <= 15 # 100)%Q -> band r = "normal".
Proof.
  intros H. unfold band. apply Qle_bool_iff in H. now rewrite H.
Qed.

Lemma band_030 (r : Q) : (r == 30 # 100)%Q -> band r = "moderate".
Proof.
  intros H. unfold band.
  replace (Qle_bool r (15 # 100)) with false.
  2:{ symmetry. apply not_true_is_false. rewrite Qle_bool_iff, H. qcmp. }
  replace (Qle_bool r (30 # 100)) with true; [reflexivity|].
  symmetry. rewrite Qle_bool_iff, H. qcmp.
Qed.

Lemma band_060 (r : Q) : (r == 60 # 100)%Q -> band r = "heavy".
Proof.
  intros H. unfold band.
  replace (Qle_bool r (15 # 100)) with false.
  2:{ symmetry. apply not_true_is_false. rewrite Qle_bool_iff, H. qcmp. }
  replace (Qle_bool r (30 # 100)) with false.
  2:{ symmetry. apply not_true_is_false. rewrite Qle_bool_iff, H. qcmp. }
  replace (Qle_bool r (60 # 100)) with true; [reflexivity|].
  symmetry. rewrite Qle_bool_iff, H. qcmp.
Qed.

(** C1: for every ratio the classifier returns one of the four labels and
    never raises; the label is monotonic non-decreasing in the ratio under
    normal < moderate < heavy < severe; the ratios 0.15, 0.30 and 0.60
    classify as normal, moderate and heavy; every negative ratio classifies
    as normal. *)
Theorem calculate_severity_labels_monotone_boundaries :
  (forall r, exists l, calculate_severity r = Ok l /\ is_severity_label l) /\
  (forall r1 r2 l1 l2,
      (r1 <= r2)%Q ->
      calculate_severity r1 = Ok l1 -> calculate_severity r2 = Ok l2 ->
      severity_le l1 l2) /\
  (forall r, (r == 15 # 100)%Q -> calculate_severity r = Ok "normal") /\
  (forall r, (r == 30 # 100)%Q -> calculate_severity r = Ok "moderate") /\
  (forall r, (r == 60 # 100)%Q -> calculate_severity r = Ok "heavy") /\
  (forall r, (r < 0)%Q -> calculate_severity r = Ok "normal").
Proof.
  repeat split.
  - intros r. exists (band r). split; [apply calculate_severity_band|apply band_is_label].
  - intros r1 r2 l1 l2 Hle H1 H2.
    rewrite calculate_severity_band in H1, H2.
    injection H1 as <-. injection H2 as <-.
    now apply band_monotone.
  - intros r H. rewrite calculate_severity_band. f_equal.
    apply band_le_015. rewrite H. apply Qle_refl.
  - intros r H. rewrite calculate_severity_band. f_equal. now apply band_030.
  - intros r H. rewrite calculate_severity_band. f_equal. now apply band_060.
  - intros r H. rewrite calculate_severity_band. f_equal.
    apply band_le_015. apply Qlt_le_weak.
    eapply Qlt_trans; [exact H|qcmp].
Qed.

Lemma calculate_severity_labels_monotone_boundaries_witness :
  severity_le "normal" "heavy" /\
  calculate_severity (15 # 100) = Ok "normal" /\
  calculate_severity (3 # 10) = Ok "moderate" /\
  calculate_severity (6 # 10) = Ok "heavy" /\
  calculate_severity (- (1 # 4)) = Ok "normal".
Proof.
  destruct calculate_severity_labels_monotone_boundaries
    as (_ & Hmono & H15 & H30 & H60 & Hneg).
  split.
  - apply (Hmono (1 # 10) (1 # 2))%Q; [qcmp|reflexivity|reflexivity].
  - split; [apply H15; reflexivity|].
    split; [apply H30; reflexivity|].
    split; [apply H60; reflexivity|].
    apply Hneg. reflexivity.
Defined.

(** ** Historical baseline store *)

Lemma record_all_app (db : Table) (obs : list TrafficData) :
  exists rows,
    record_all db obs = db ++ rows /\ map observation rows = obs.
Proof.
  revert db. induction obs as [|o obs IH]; intros db.
  - exists []. split; [now rewrite app_nil_r|reflexivity].
  - cbn [record_all fold_left]. fold (record_all (store_traffic_data db o) obs).
    destruct (IH (store_traffic_data db o)) as (rows & Hrows & Hobs).
    exists ({| id := next_id db; observation := o |} :: rows). split.
    + rewrite Hrows. unfold store_traffic_data. now rewrite <- app_assoc.
    + cbn. now rewrite Hobs.
Qed.

Lemma selected_durations_observations (db : Table) (loc : string) (cutoff : Z) :
  map (fun r => duration_in_traffic (observation r))
      (filter (where_location_since loc cutoff) db)
  = map duration_in_traffic (filter (qualifies loc cutoff) (map observation db)).
Proof.
  induction db as [|r db IH]; [reflexivity|].
  cbn. unfold where_location_since at 1, qualifies at 1.
  destruct (_ && _); cbn; now rewrite IH.
Qed.

Lemma filter_none {A} (f : A -> bool) (l : list A) :
  (forall x, In x l -> f x = false) -> filter f l = [].
Proof.
  induction l as [|x l IH]; intros H; [reflexivity|].
  cbn. rewrite (H x (or_introl eq_refl)). apply IH.
  intros y Hy. apply H. now right.
Qed.

Lemma filter_all {A} (f : A -> bool) (l : list A) :
  (forall x, In x l -> f x = true) -> filter f l = l.
Proof.
  induction l as [|x l IH]; intros H; [reflexivity|].
  cbn. rewrite (H x (or_introl eq_refl)). f_equal. apply IH.
  intros y Hy. apply H. now right.
Qed.

Lemma Zsum_permutation (l l' : list Z) : Permutation l l' -> Zsum l = Zsum l'.
Proof.
  induction 1; unfold Zsum in *; cbn in *; lia.
Qed.

(** After recording [obs] for a location that had no rows, a window that
    reaches behind every one of them selects exactly their durations. *)
Lemma selected_after_record_all (db0 : Table) (obs : list TrafficData)
    (loc : string) (cutoff : Z) :
  (forall o, In o obs -> location o = loc) ->
  (forall r, In r db0 -> location (observation r) <> loc) ->
  (forall o, In o obs -> cutoff < timestamp o) ->
  map (fun r => duration_in_traffic (observation r))
      (filter (where_location_since loc cutoff) (record_all db0 obs))
  = map duration_in_traffic obs.
Proof.
  intros Hloc Hother Hwin.
  rewrite selected_durations_observations.
  destruct (record_all_app db0 obs) as (rows & -> & Hrows).
  rewrite map_app, filter_app, Hrows.
  rewrite filter_none, filter_all; [reflexivity| |].
  - intros o Ho. unfold qualifies.
    rewrite (Hloc o Ho), String.eqb_refl. cbn.
    apply Z.ltb_lt. now apply Hwin.
  - intros o Ho. apply in_map_iff in Ho. destruct Ho as (r & <- & Hr).
    unfold qualifies.
    destruct (String.eqb_spec (location (observation r)) loc) as [E|E];
      [now apply Hother in E|reflexivity].
Qed.

Lemma binary64_mean_permutation (l l' : list Z) :
  Permutation l l' -> Binary64.arithmetic_mean l = Binary64.arithmetic_mean l'.
Proof.
  intros H. unfold Binary64.arithmetic_mean.
  now rewrite (Zsum_permutation _ _ H), (Permutation_length H).
Qed.

Lemma binary64_sql_avg_mean (vals : list Z) :
  vals <> [] -> Binary64.sql_avg vals = Some (Binary64.arithmetic_mean vals).
Proof.
  destruct vals; [congruence|reflexivity].
Qed.

(** C3, as the code has it: after recording N >= 1 Observations for a
    location, [get_historical_average] with a window that reaches behind
    all of them returns the arithmetic mean of the N durations, the float
    that the sum over the count is, when that mean is not zero, and [None]
    when it is zero; the result does not depend on the order of
    insertion. *)
Theorem get_historical_average_binary64_mean (db0 : Table) (obs : list TrafficData)
    (loc : string) (t_now days_back : Z) :
  obs <> [] ->
  (forall o, In o obs -> location o = loc) ->
  (forall r, In r db0 -> location (observation r) <> loc) ->
  (forall o, In o obs -> t_now - timedelta_days days_back < timestamp o) ->
  Binary64.get_historical_average (record_all db0 obs) t_now loc days_back
  = Binary64.mean_or_none (Binary64.arithmetic_mean (map duration_in_traffic obs))
  /\
  forall obs', Permutation obs obs' ->
    Binary64.get_historical_average (record_all db0 obs') t_now loc days_back
    = Binary64.get_historical_average (record_all db0 obs) t_now loc days_back.
Proof.
  intros Hne Hloc Hother Hwin.
  assert (Hgen : forall l, l <> [] ->
            (forall o, In o l -> location o = loc) ->
            (forall o, In o l -> t_now - timedelta_days days_back < timestamp o) ->
            Binary64.get_historical_average (record_all db0 l) t_now loc days_back
            = Binary64.mean_or_none (Binary64.arithmetic_mean (map duration_in_traffic l))).
  { intros l Hl Hll Hlw.
    unfold Binary64.get_historical_average, Binary64.select_avg_duration.
    rewrite (selected_after_record_all db0 l loc _ Hll Hother Hlw).
    rewrite binary64_sql_avg_mean by (destruct l; [congruence|discriminate]).
    unfold Binary64.mean_or_none. cbn [Binary64.opt_float_truthy].
    now destruct (Binary64.float_truthy _). }
  split; [now apply Hgen|].
  intros obs' Hperm.
  rewrite (Hgen obs), (Hgen obs'); try assumption.
  - f_equal. apply binary64_mean_permutation.
    apply Permutation_map. now apply Permutation_sym.
  - intros ->. apply Permutation_sym, Permutation_nil in Hperm. congruence.
  - intros o Ho. apply Hloc. eapply Permutation_in; [apply Permutation_sym|]; eassumption.
  - intros o Ho. apply Hwin. eapply Permutation_in; [apply Permutation_sym|]; eassumption.
Qed.

(** Three Observations of 300, 302 and 302 seconds: the average returned
    is the float 301.33333333333331, that is 5301112061384021 / 2^44. *)
Lemma get_historical_average_binary64_mean_witness :
  Binary64.get_historical_average history_300_302_302
    30 "-6.2088,106.8456--6.2297,106.8269" 30
  = Some (SpecFloat.S754_finite false 5301112061384021 (-44)).
Proof.
  refine (eq_trans
            (proj1 (get_historical_average_binary64_mean
                      [] [sample_observation 300 10; sample_observation 302 11;
                          sample_observation 302 12]
                      "-6.2088,106.8456--6.2297,106.8269" 30 30 _ _ _ _)) _).
  - discriminate.
  - intros o [<-|[<-|[<-|[]]]]; reflexivity.
  - intros r [].
  - intros o [<-|[<-|[<-|[]]]]; reflexivity.
  - vm_compute. reflexivity.
Defined.

(** One Observation with a duration in traffic of 0 seconds: the mean is
    the float 0.0, the function returns [None]. *)
Lemma get_historical_average_binary64_zero_mean_is_none :
  Binary64.arithmetic_mean (map duration_in_traffic [sample_observation 0 10])
  = SpecFloat.S754_zero false /\
  Binary64.get_historical_average (record_all [] [sample_observation 0 10])
    30 "-6.2088,106.8456--6.2297,106.8269" 30 = None /\
  Binary64.get_historical_average (record_all [] [sample_observation 0 10])
    30 "-6.2088,106.8456--6.2297,106.8269" 30
  <> Some (Binary64.arithmetic_mean (map duration_in_traffic [sample_observation 0 10])).
Proof.
  split; [vm_compute; reflexivity|]. split; [vm_compute; reflexivity|].
  vm_compute. discriminate.
Qed.

Lemma select_avg_none_iff (db : Table) (loc : string) (cutoff : Z) :
  select_avg_duration db loc cutoff = None
  <-> forall r, In r db -> where_location_since loc cutoff r = false.
Proof.
  unfold select_avg_duration. split.
  - intros H r Hr.
    destruct (where_location_since loc cutoff r) eqn:E; [|reflexivity].
    assert (Hin : In r (filter (where_location_since loc cutoff) db))
      by (apply filter_In; auto).
    destruct (filter (where_location_since loc cutoff) db); [destruct Hin|].
    discriminate H.
  - intros H. now rewrite (filter_none _ _ H).
Qed.

(** The function never returns a zero average. *)
Lemma get_historical_average_not_zero (db : Table) (t_now : Z) (loc : string)
    (days_back : Z) (q : Q) :
  get_historical_average db t_now loc days_back = Some q -> ~ (q == 0)%Q.
Proof.
  unfold get_historical_average. cbv zeta.
  destruct (select_avg_duration db loc _) as [a|]; cbn; [|discriminate].
  unfold float_truthy. destruct (Qeq_bool a 0) eqn:E; cbn; [discriminate|].
  intros [= <-] Hq. apply Qeq_bool_iff in Hq. congruence.
Qed.

(** No row of the location after the cut-off: the query yields [NULL] and
    the function [None]. *)
Lemma get_historical_average_none_of_no_row (db : Table) (t_now : Z)
    (loc : string) (days_back : Z) :
  (forall r, In r db ->
             location (observation r) = loc ->
             ~ (t_now - timedelta_days days_back < timestamp (observation r))) ->
  get_historical_average db t_now loc days_back = None.
Proof.
  intros H.
  unfold get_historical_average. cbv zeta.
  replace (select_avg_duration db loc (t_now - timedelta_days days_back))
    with (@None Q); [reflexivity|].
  symmetry. apply select_avg_none_iff. intros r Hr.
  unfold where_location_since.
  destruct (String.eqb_spec (location (observation r)) loc) as [E|E]; [|reflexivity].
  cbn. apply Z.ltb_ge. specialize (H r Hr E). lia.
Qed.

(** The same under the specification's window [[now - w, now]], for a table
    whose timestamps are not in the future. *)
Lemma get_historical_average_closed_window_none (db : Table) (t_now : Z)
    (loc : string) (days_back : Z) :
  (forall r, In r db -> timestamp (observation r) <= t_now) ->
  (forall r, In r db ->
             location (observation r) = loc ->
             ~ (t_now - timedelta_days days_back <= timestamp (observation r) <= t_now)) ->
  get_historical_average db t_now loc days_back = None.
Proof.
  intros Hpast H.
  apply get_historical_average_none_of_no_row.
  intros r Hr E. specialize (H r Hr E). specialize (Hpast r Hr). lia.
Qed.

(** C4: when no row of the location has its timestamp inside the window
    (after the cut-off [now - days_back]), [get_historical_average] returns
    [None]; and whatever the table holds, it never returns a zero
    average. *)
Theorem get_historical_average_empty_window_none :
  (forall (db : Table) (t_now : Z) (loc : string) (days_back : Z),
      (forall r, In r db ->
                 location (observation r) = loc ->
                 ~ (t_now - timedelta_days days_back < timestamp (observation r))) ->
      get_historical_average db t_now loc days_back = None) /\
  (forall (db : Table) (t_now : Z) (loc : string) (days_back : Z) (q : Q),
      get_historical_average db t_now loc days_back = Some q -> ~ (q == 0)%Q).
Proof.
  split.
  - exact get_historical_average_none_of_no_row.
  - exact get_historical_average_not_zero.
Qed.

Lemma get_historical_average_empty_window_none_witness :
  get_historical_average
    (record_all [] [sample_observation 600 10; sample_observation 900 20])
    (20 + timedelta_days 30) "-6.2088,106.8456--6.2297,106.8269" 30 = None /\
  ~ Qeq (arithmetic_mean [600; 900]) 0.
Proof.
  destruct get_historical_average_empty_window_none as [Hnone Hnz].
  split.
  - apply Hnone. intros r [<-|[<-|[]]] _; cbn; lia.
  - apply (Hnz (record_all [] [sample_observation 600 10; sample_observation 900 20])
               30 "-6.2088,106.8456--6.2297,106.8269" 30).
    reflexivity.
Defined.

(** ** Anomaly comparator *)

Lemma truediv_nonzero (a b : Q) : ~ (b == 0)%Q -> truediv a b = Ok (a / b)%Q.
Proof.
  intros H. unfold truediv.
  destruct (Qeq_bool b 0) eqn:E; [|reflexivity].
  apply Qeq_bool_iff in E. contradiction.
Qed.

Lemma float_truthy_nonzero (q : Q) : ~ (q == 0)%Q -> float_truthy q = true.
Proof.
  intros H. unfold float_truthy.
  destruct (Qeq_bool q 0) eqn:E; [|reflexivity].
  apply Qeq_bool_iff in E. contradiction.
Qed.

(** The two outcomes of [is_traffic_unusual], by what the store returns. *)
Lemma is_traffic_unusual_cases (db : Table) (t_now cur : Z) (loc : string) :
  is_traffic_unusual db t_now cur loc =
  match get_historical_average db t_now loc 30 with
  | None => Ok (false, "No historical data available")
  | Some h =>
    let ratio := ((inject_Z cur - h) / h)%Q in
    if Qle_bool ratio (5 # 10) then Ok (false, "Traffic is within normal range")
    else Ok (true, unusual_message ratio)
  end.
Proof.
  unfold is_traffic_unusual. cbv zeta.
  destruct (get_historical_average db t_now loc 30) as [h|] eqn:E; [|reflexivity].
  pose proof (get_historical_average_not_zero _ _ _ _ _ E) as Hnz.
  cbn [opt_float_truthy]. rewrite (float_truthy_nonzero _ Hnz). cbn [negb].
  rewrite (truediv_nonzero _ _ Hnz). cbn [rbind].
  now destruct (Qle_bool _ (5 # 10)).
Qed.


Lemma binary64_average_truthy (db : Table) (t_now : Z) (loc : string)
    (days_back : Z) (h : Binary64.float) :
  Binary64.get_historical_average db t_now loc days_back = Some h ->
  Binary64.float_truthy h = true.
Proof.
  unfold Binary64.get_historical_average. cbv zeta.
  destruct (Binary64.select_avg_duration db loc _) as [a|];
    cbn [Binary64.opt_float_truthy]; [|discriminate].
  destruct (Binary64.float_truthy a) eqn:E; [|discriminate].
  now intros [= <-].
Qed.

Lemma binary64_average_none_of_no_row (db : Table) (t_now : Z) (loc : string)
    (days_back : Z) :
  (forall r, In r db -> location (observation r) <> loc) ->
  Binary64.get_historical_average db t_now loc days_back = None.
Proof.
  intros H. unfold Binary64.get_historical_average, Binary64.select_avg_duration.
  rewrite filter_none; [reflexivity|].
  intros r Hr. unfold where_location_since.
  destruct (String.eqb_spec (location (observation r)) loc) as [E|E]; [|reflexivity].
  now apply H in E.
Qed.

(** The outcomes of the comparator, by what the store returns and by the
    conversion of the current duration. *)
Lemma binary64_is_traffic_unusual_cases (db : Table) (t_now cur : Z) (loc : string) :
  Binary64.is_traffic_unusual db t_now cur loc =
  match Binary64.get_historical_average db t_now loc 30 with
  | None => Ok (false, "No historical data available")
  | Some h =>
    match Binary64.float_of_int cur with
    | Raise e => Raise e
    | Ok c =>
      let ratio := Binary64.div (Binary64.sub c h) h in
      if Binary64.gt ratio Binary64.half then
        Ok (true, ("Traffic is " ++ Binary64.format_percent_1 ratio
                   ++ " higher than usual")%string)
      else Ok (false, "Traffic is within normal range")
    end
  end.
Proof.
  unfold Binary64.is_traffic_unusual. cbv zeta.
  destruct (Binary64.get_historical_average db t_now loc 30) as [h|] eqn:E;
    [|reflexivity].
  pose proof (binary64_average_truthy _ _ _ _ _ E) as Ht.
  cbn [Binary64.opt_float_truthy]. rewrite Ht. cbn [negb].
  destruct (Binary64.float_of_int cur) as [c|e]; cbn [rbind]; [|reflexivity].
  unfold Binary64.truediv. unfold Binary64.float_truthy in Ht.
  destruct (SpecFloat.SFeqb h (SpecFloat.S754_zero false)); [discriminate Ht|].
  reflexivity.
Qed.

(** C2, as the code has it: without a historical average the comparator
    returns (False, "No historical data available") whatever the current
    duration.  With an average [h] and a current duration that converts to
    the float [c], it computes the ratio (c - h) / h in binary64 and returns
    True, with the ratio as a percentage of one decimal in the text, exactly
    when the ratio is strictly greater than 0.5, and
    (False, "Traffic is within normal range") otherwise.  With an average of
    100 it returns True, "51.0%", for 151 and False for 150; with an
    average of 400 it returns True, "50.7%", for 603. *)
Theorem is_traffic_unusual_binary64_threshold (db : Table) (t_now : Z) (loc : string) :
  (forall cur,
      Binary64.get_historical_average db t_now loc 30 = None ->
      Binary64.is_traffic_unusual db t_now cur loc
      = Ok (false, "No historical data available")) /\
  ((forall r, In r db -> location (observation r) <> loc) ->
   forall cur,
     Binary64.is_traffic_unusual db t_now cur loc
     = Ok (false, "No historical data available")) /\
  (forall cur h c,
      Binary64.get_historical_average db t_now loc 30 = Some h ->
      Binary64.float_of_int cur = Ok c ->
      let ratio := Binary64.div (Binary64.sub c h) h in
      (Binary64.gt ratio Binary64.half = true ->
       Binary64.is_traffic_unusual db t_now cur loc
       = Ok (true, ("Traffic is " ++ Binary64.format_percent_1 ratio
                    ++ " higher than usual")%string)) /\
      (Binary64.gt ratio Binary64.half = false ->
       Binary64.is_traffic_unusual db t_now cur loc
       = Ok (false, "Traffic is within normal range"))) /\
  (Binary64.get_historical_average db t_now loc 30 = Some (Binary64.nearest 100) ->
   Binary64.is_traffic_unusual db t_now 151 loc
   = Ok (true, "Traffic is 51.0% higher than usual") /\
   Binary64.is_traffic_unusual db t_now 150 loc
   = Ok (false, "Traffic is within normal range")) /\
  (Binary64.get_historical_average db t_now loc 30 = Some (Binary64.nearest 400) ->
   Binary64.is_traffic_unusual db t_now 603 loc
   = Ok (true, "Traffic is 50.7% higher than usual")).
Proof.
  split; [|split; [|split; [|split]]].
  - intros cur E. now rewrite binary64_is_traffic_unusual_cases, E.
  - intros H cur. rewrite binary64_is_traffic_unusual_cases.
    now rewrite binary64_average_none_of_no_row.
  - intros cur h c E Hc ratio.
    rewrite binary64_is_traffic_unusual_cases, E, Hc. cbv zeta. fold ratio.
    split; intros ->; reflexivity.
  - intros E. rewrite !binary64_is_traffic_unusual_cases, E.
    split; vm_compute; reflexivity.
  - intros E. rewrite binary64_is_traffic_unusual_cases, E.
    vm_compute. reflexivity.
Qed.

Lemma is_traffic_unusual_binary64_threshold_witness :
  (Binary64.is_traffic_unusual history_100 20 151 "-6.2088,106.8456--6.2297,106.8269"
   = Ok (true, "Traffic is 51.0% higher than usual") /\
   Binary64.is_traffic_unusual history_100 20 150 "-6.2088,106.8456--6.2297,106.8269"
   = Ok (false, "Traffic is within normal range")) /\
  Binary64.is_traffic_unusual history_400 20 603 "-6.2088,106.8456--6.2297,106.8269"
  = Ok (true, "Traffic is 50.7% higher than usual") /\
  Binary64.is_traffic_unusual history_100 20 151 "-6.1944,106.8229--6.2088,106.8456"
  = Ok (false, "No historical data available").
Proof.
  destruct (is_traffic_unusual_binary64_threshold history_100 20
              "-6.2088,106.8456--6.2297,106.8269") as (_ & _ & _ & H100 & _).
  destruct (is_traffic_unusual_binary64_threshold history_400 20
              "-6.2088,106.8456--6.2297,106.8269") as (_ & _ & _ & _ & H400).
  destruct (is_traffic_unusual_binary64_threshold history_100 20
              "-6.1944,106.8229--6.2088,106.8456") as (Hnone & _).
  split; [|split].
  - apply H100. vm_compute. reflexivity.
  - apply H400. vm_compute. reflexivity.
  - apply Hnone. vm_compute. reflexivity.
Defined.

(** The no-history answer reads "No historical data available", not
    "no historical data"; and a current duration beyond the range of a
    float raises [OverflowError]. *)
Lemma is_traffic_unusual_binary64_literal_and_range :
  Binary64.is_traffic_unusual [] 20 151 "-6.2088,106.8456--6.2297,106.8269"
  = Ok (false, "No historical data available") /\
  Binary64.is_traffic_unusual [] 20 151 "-6.2088,106.8456--6.2297,106.8269"
  <> Ok (false, "no historical data") /\
  Binary64.is_traffic_unusual history_100 20 (2 ^ 1024)
    "-6.2088,106.8456--6.2297,106.8269"
  = Raise OverflowError.
Proof.
  split; [reflexivity|]. split; [discriminate|]. vm_compute. reflexivity.
Qed.

(** Three Observations of 300, 302 and 302 seconds and a current duration
    of 452: the average is the float just below 904/3, the ratio the float
    just above 0.5, and the comparator answers True. *)
Example is_traffic_unusual_binary64_452 :
  Binary64.is_traffic_unusual history_300_302_302 20 452
    "-6.2088,106.8456--6.2297,106.8269"
  = Ok (true, "Traffic is 50.0% higher than usual").
Proof. vm_compute. reflexivity. Qed.



(** ** Traffic fetcher *)

(** The whole of [get_traffic_data]: it returns [fetched], issues one
    directions request and logs the exception the [try] block raised. *)
Lemma get_traffic_data_run (env : Env) (s : BotState) (origin destination : Dict) :
  get_traffic_data origin destination env s
  = (Ok (fetched env origin destination),
     add_events s (fetch_events env origin destination)).
Proof.
  unfold get_traffic_data, try_except, requests_get_directions, bind, emit,
    datetime_now, lift_result, logger_error, ret, fetched, fetch_events,
    fetch_outcome, add_events.
  cbn.
  destruct (directions_api env (coord_param origin) (coord_param destination))
    as [|data]; cbn.
  - now rewrite <- app_assoc.
  - destruct (traffic_data_of_json origin destination (now env) data); cbn;
      [reflexivity|now rewrite <- app_assoc].
Qed.

Lemma get_traffic_data_never_raises (env : Env) (s : BotState)
    (origin destination : Dict) :
  exists v s', get_traffic_data origin destination env s = (Ok v, s').
Proof.
  rewrite get_traffic_data_run. do 2 eexists. reflexivity.
Qed.

(** C5: a response whose first leg reports a baseline duration of 0 makes
    [get_traffic_data] return [None]; no exception leaves the call and the
    table is untouched.  With status OK and a duration in traffic present,
    it is the [ZeroDivisionError] of the ratio that is caught and logged. *)
Theorem get_traffic_data_zero_baseline_none (env : Env) (s : BotState)
    (origin destination : Dict) (data : DirectionsJson)
    (route0 : Route) (more_routes : list Route) (leg0 : Leg) (more_legs : list Leg) :
  directions_api env (coord_param origin) (coord_param destination) = HttpJson data ->
  routes data = Some (route0 :: more_routes) ->
  legs route0 = leg0 :: more_legs ->
  leg_duration leg0 = Some 0 ->
  fst (get_traffic_data origin destination env s) = Ok None /\
  traffic_history (snd (get_traffic_data origin destination env s)) = traffic_history s /\
  (status data = Some "OK" ->
   forall dit, leg_duration_in_traffic leg0 = Some dit ->
   get_traffic_data origin destination env s
   = (Ok None,
      add_events s [ EvDirections (coord_param origin) (coord_param destination);
                     EvLogError "Error getting traffic data" ZeroDivisionError ])).
Proof.
  intros Hresp Hroutes Hlegs Hdn.
  rewrite get_traffic_data_run.
  unfold fetched, fetch_events, fetch_outcome. rewrite Hresp. cbn [http_json rbind].
  unfold traffic_data_of_json. rewrite Hroutes.
  destruct (status data) as [st|]; cbn [opt_getitem rbind].
  2:{ split; [reflexivity|]. split; [reflexivity|]. discriminate. }
  destruct (String.eqb_spec st "OK") as [->|Hst]; cbn [negb].
  2:{ split; [reflexivity|]. split; [reflexivity|]. intros [= E]. contradiction. }
  unfold list_getitem. cbn [nth_error rbind]. rewrite Hlegs. cbn [nth_error rbind].
  rewrite Hdn.
  destruct (leg_duration_in_traffic leg0) as [dit|]; cbn.
  - split; [reflexivity|]. split; [reflexivity|]. intros _ dit' _. reflexivity.
  - split; [reflexivity|]. split; [reflexivity|]. intros _ dit' [=].
Qed.

Lemma get_traffic_data_zero_baseline_none_witness :
  fst (get_traffic_data sudirman_origin sudirman_destination
         (constant_env (HttpJson (ok_response 1200 0))) initial_state) = Ok None.
Proof.
  refine (proj1 (get_traffic_data_zero_baseline_none
            (constant_env (HttpJson (ok_response 1200 0))) initial_state
            sudirman_origin sudirman_destination (ok_response 1200 0)
            _ [] _ [] _ _ _ _)); reflexivity.
Defined.



(** ** Scheduled sweep *)

Lemma directions_requests_app (tr1 tr2 : list Event) :
  directions_requests (tr1 ++ tr2) = directions_requests tr1 ++ directions_requests tr2.
Proof.
  unfold directions_requests. apply flat_map_app.
Qed.

Lemma directions_requests_fetch (env : Env) (origin destination : Dict) :
  directions_requests (fetch_events env origin destination)
  = [(coord_param origin, coord_param destination)].
Proof.
  unfold fetch_events. cbn.
  now destruct (fetch_outcome env origin destination).
Qed.

(** The whole of a sweep: it ends normally, the table grows by the
    Observations of the roads whose fetch succeeded, and one directions
    request goes out per road, in the order of the roads. *)
Lemma collect_traffic_data_run (env : Env) (roads : Roads) (s : BotState) :
  exists evs,
    collect_traffic_data roads env s
    = (Ok tt,
       add_events
         (set_history s (record_all (traffic_history s) (road_observations env roads)))
         evs)
    /\ directions_requests evs = map road_request roads.
Proof.
  unfold collect_traffic_data.
  match goal with
  | |- context [for_each roads ?b] => set (body := b)
  end.
  assert (Hloop : forall rs s0, exists evs,
             for_each rs body env s0
             = (Ok tt,
                add_events
                  (set_history s0 (record_all (traffic_history s0) (road_observations env rs)))
                  evs)
             /\ directions_requests evs = map road_request rs).
  { induction rs as [|[road_name [c0 c1]] rs IH]; intros s0.
    - exists []. split; [|reflexivity].
      destruct s0. unfold add_events, set_history. cbn. now rewrite app_nil_r.
    - cbn [for_each]. unfold bind at 1. unfold body at 1. unfold bind at 1.
      rewrite get_traffic_data_run.
      cbn [road_observations flat_map fst snd map].
      fold (road_observations env rs).
      destruct (fetched env c0 c1) as [td|].
      + unfold call_store_traffic_data, write_history, logger_info, emit, bind.
        cbn [add_events traffic_history user_data trace].
        match goal with
        | |- context [for_each rs body env ?s1] => destruct (IH s1) as (evs & Hrun & Hreq)
        end.
        rewrite Hrun.
        eexists (fetch_events env c0 c1
                 ++ [EvLogInfo ("Stored traffic data for " ++ road_name)%string] ++ evs).
        split.
        * unfold add_events, set_history. cbn. rewrite <- !app_assoc. reflexivity.
        * rewrite !directions_requests_app, directions_requests_fetch, Hreq. reflexivity.
      + unfold ret.
        match goal with
        | |- context [for_each rs body env ?s1] => destruct (IH s1) as (evs & Hrun & Hreq)
        end.
        rewrite Hrun.
        exists (fetch_events env c0 c1 ++ evs).
        split.
        * unfold add_events, set_history. cbn. rewrite <- !app_assoc. reflexivity.
        * rewrite directions_requests_app, directions_requests_fetch, Hreq. reflexivity. }
  unfold bind, logger_info, emit.
  match goal with
  | |- context [for_each roads body env ?s1] => destruct (Hloop roads s1) as (evs & Hrun & Hreq)
  end.
  rewrite Hrun.
  exists (EvLogInfo "Collecting traffic data for major roads..." :: evs).
  split.
  - unfold add_events, set_history. cbn. rewrite <- app_assoc. reflexivity.
  - cbn. exact Hreq.
Qed.

Lemma road_observations_failed_length (env : Env) (roads : Roads) :
  (List.length (road_observations env roads) + List.length (failed_roads env roads)
   = List.length roads)%nat.
Proof.
  induction roads as [|road roads IH]; [reflexivity|].
  cbn [road_observations failed_roads flat_map filter].
  fold (road_observations env roads). fold (failed_roads env roads).
  destruct (fetched env (fst (snd road)) (snd (snd road))); cbn; lia.
Qed.

Lemma road_observations_in (env : Env) (roads : Roads) (o : TrafficData) :
  In o (road_observations env roads)
  <-> exists road, In road roads /\ fetched env (fst (snd road)) (snd (snd road)) = Some o.
Proof.
  unfold road_observations. rewrite in_flat_map. split.
  - intros (road & Hin & Ho). exists road. split; [exact Hin|].
    destruct (fetched env (fst (snd road)) (snd (snd road))) as [td|]; [|destruct Ho].
    destruct Ho as [->|[]]. reflexivity.
  - intros (road & Hin & Ho). exists road. split; [exact Hin|].
    rewrite Ho. now left.
Qed.

Lemma failed_roads_in (env : Env) (roads : Roads) (road : string * (Dict * Dict)) :
  In road roads -> fetched env (fst (snd road)) (snd (snd road)) = None ->
  In road (failed_roads env roads).
Proof.
  intros Hin Hf. unfold failed_roads. apply filter_In. split; [exact Hin|].
  now rewrite Hf.
Qed.

(** C7: a sweep over K roads always runs to its end and sends a directions
    request for every road, in order.  The table grows by exactly the
    Observations the successful fetches returned, each stored whole and in
    the order of the roads, so the number of new rows is K minus the number
    of failed roads: at most K - 1 when a road fails.  No row is written
    for a fetch that failed, and the rows already stored stay as they
    were. *)
Theorem collect_traffic_data_failure_isolated (env : Env) (roads : Roads)
    (s : BotState) :
  fst (collect_traffic_data roads env s) = Ok tt /\
  (exists rows,
      traffic_history (snd (collect_traffic_data roads env s))
      = traffic_history s ++ rows /\
      map observation rows = road_observations env roads /\
      (List.length rows + List.length (failed_roads env roads) = List.length roads)%nat /\
      (forall road, In road roads ->
                    fetched env (fst (snd road)) (snd (snd road)) = None ->
                    (List.length rows + 1 <= List.length roads)%nat) /\
      (forall row, In row rows ->
                   exists road, In road roads /\
                     fetched env (fst (snd road)) (snd (snd road))
                     = Some (observation row))) /\
  directions_requests (trace (snd (collect_traffic_data roads env s)))
  = directions_requests (trace s) ++ map road_request roads.
Proof.
  destruct (collect_traffic_data_run env roads s) as (evs & Hrun & Hreq).
  rewrite Hrun. cbn [fst snd add_events set_history traffic_history trace].
  split; [reflexivity|]. split.
  - destruct (record_all_app (traffic_history s) (road_observations env roads))
      as (rows & Hrows & Hobs).
    exists rows. split; [exact Hrows|]. split; [exact Hobs|].
    assert (Hlen : (List.length rows + List.length (failed_roads env roads)
                    = List.length roads)%nat).
    { rewrite <- (road_observations_failed_length env roads), <- Hobs.
      now rewrite length_map. }
    split; [exact Hlen|]. split.
    + intros road Hin Hf.
      pose proof (failed_roads_in env roads road Hin Hf) as Hfailed.
      destruct (failed_roads env roads); [destruct Hfailed|]. cbn in Hlen. lia.
    + intros row Hrow. apply road_observations_in. rewrite <- Hobs.
      now apply in_map.
  - now rewrite directions_requests_app, Hreq.
Qed.

Lemma collect_traffic_data_failure_isolated_witness :
  (List.length (traffic_history
                  (snd (collect_traffic_data major_roads thamrin_down_env initial_state)))
   = 4)%nat /\
  exists rows,
    traffic_history (snd (collect_traffic_data major_roads thamrin_down_env initial_state))
    = rows /\
    (List.length rows + 1 <= List.length major_roads)%nat.
Proof.
  split; [reflexivity|].
  destruct (collect_traffic_data_failure_isolated thamrin_down_env major_roads initial_state)
    as (_ & (rows & Hrows & _ & _ & Hfail & _) & _).
  exists rows. split; [exact Hrows|].
  apply (Hfail jalan_thamrin); [right; left; reflexivity|reflexivity].
Defined.

(** ** Append-only history *)

Lemma history_extends_refl (s : BotState) : history_extends s s.
Proof.
  exists []. now rewrite app_nil_r.
Qed.

Lemma history_extends_trans (s1 s2 s3 : BotState) :
  history_extends s1 s2 -> history_extends s2 s3 -> history_extends s1 s3.
Proof.
  intros (r1 & H1) (r2 & H2). exists (r1 ++ r2).
  now rewrite H2, H1, app_assoc.
Qed.

Section Appends.
Context {A B : Type}.

Lemma appends_ret (a : A) : appends (ret a).
Proof. intros env s. apply history_extends_refl. Qed.

Lemma appends_lift_result (r : Result A) : appends (lift_result r).
Proof. intros env s. apply history_extends_refl. Qed.

Lemma appends_bind (c : M A) (k : A -> M B) :
  appends c -> (forall a, appends (k a)) -> appends (bind c k).
Proof.
  intros Hc Hk env s. unfold bind.
  specialize (Hc env s). destruct (c env s) as [[a|e] s1]; cbn in *.
  - eapply history_extends_trans; [exact Hc|apply Hk].
  - exact Hc.
Qed.

Lemma appends_try_except (body : M A) (handler : exn -> M A) :
  appends body -> (forall e, appends (handler e)) -> appends (try_except body handler).
Proof.
  intros Hb Hh env s. unfold try_except.
  specialize (Hb env s). destruct (body env s) as [[a|e] s1]; cbn in *.
  - exact Hb.
  - eapply history_extends_trans; [exact Hb|apply Hh].
Qed.

Lemma appends_for_each (xs : list A) (body : A -> M unit) :
  (forall x, appends (body x)) -> appends (for_each xs body).
Proof.
  intros Hbody. induction xs as [|x xs IH]; cbn [for_each].
  - intros env s. apply history_extends_refl.
  - intros env s. unfold bind.
    specialize (Hbody x env s). destruct (body x env s) as [[[]|e] s1]; cbn in *.
    + eapply history_extends_trans; [exact Hbody|apply IH].
    + exact Hbody.
Qed.

Lemma appends_for_each_acc (xs : list A) (acc : B) (body : A -> B -> M B) :
  (forall x acc', appends (body x acc')) -> appends (for_each_acc xs acc body).
Proof.
  intros Hbody. revert acc. induction xs as [|x xs IH]; intros acc; cbn [for_each_acc].
  - intros env s. apply history_extends_refl.
  - intros env s. unfold bind.
    specialize (Hbody x acc env s). destruct (body x acc env s) as [[acc'|e] s1]; cbn in *.
    + eapply history_extends_trans; [exact Hbody|apply IH].
    + exact Hbody.
Qed.
End Appends.

Ltac same_history := intros env s; exists []; cbn; now rewrite app_nil_r.

Lemma appends_emit (ev : Event) : appends (emit ev).
Proof. same_history. Qed.

Lemma appends_datetime_now : appends datetime_now.
Proof. same_history. Qed.

Lemma appends_read_history : appends read_history.
Proof. same_history. Qed.

Lemma appends_read_user_data : appends read_user_data.
Proof. same_history. Qed.

Lemma appends_write_user_data (f : list (string * Dict) -> list (string * Dict)) :
  appends (write_user_data f).
Proof. same_history. Qed.

(** The one writer of the table: an insert at the end. *)
Lemma appends_call_store_traffic_data (td : TrafficData) :
  appends (call_store_traffic_data td).
Proof.
  intros env s. exists [ {| id := next_id (traffic_history s); observation := td |} ].
  reflexivity.
Qed.

Lemma appends_get_traffic_data (origin destination : Dict) :
  appends (get_traffic_data origin destination).
Proof.
  intros env s. rewrite get_traffic_data_run. exists []. cbn. now rewrite app_nil_r.
Qed.

Lemma appends_call_is_traffic_unusual (cur : Z) (loc : string) :
  appends (call_is_traffic_unusual cur loc).
Proof.
  unfold call_is_traffic_unusual.
  apply appends_bind; [apply appends_read_history|]. intros db.
  apply appends_bind; [apply appends_datetime_now|]. intros t.
  apply appends_lift_result.
Qed.

Lemma appends_geocode_address (address : string) : appends (geocode_address address).
Proof.
  unfold geocode_address, requests_get_geocode.
  apply appends_try_except.
  - apply appends_bind.
    + apply appends_bind; [apply appends_emit|].
      intros _. same_history.
    + intros data. apply appends_bind; [apply appends_lift_result|]. intros st.
      destruct (negb (String.eqb st "OK")); [apply appends_ret|].
      apply appends_bind; [apply appends_lift_result|]. intros [|r rs];
        [apply appends_ret|].
      apply appends_bind; [apply appends_lift_result|]. intros r0.
      apply appends_bind; [apply appends_lift_result|]. intros loc.
      apply appends_ret.
  - intros e. apply appends_bind; [apply appends_emit|]. intros _. apply appends_ret.
Qed.

Create HintDb appends.
#[local] Hint Resolve appends_emit appends_datetime_now appends_read_history
  appends_read_user_data appends_write_user_data appends_call_store_traffic_data
  appends_get_traffic_data appends_call_is_traffic_unusual appends_geocode_address
  : appends.

Ltac appends_step :=
  match goal with
  | |- appends (bind _ _) => apply appends_bind; [|intros ?]
  | |- appends (ret _) => apply appends_ret
  | |- appends (lift_result _) => apply appends_lift_result
  | |- appends (reply_text _) => apply appends_emit
  | |- appends (logger_info _) => apply appends_emit
  | |- appends (for_each _ _) => apply appends_for_each; intros ?
  | |- appends (for_each_acc _ _ _) => apply appends_for_each_acc; intros ? ?
  | |- appends (match ?x with _ => _ end) => destruct x
  | |- appends ((match ?x with _ => _ end) _) => destruct x
  | |- appends (if ?b then _ else _) => destruct b
  | |- appends _ => solve [auto with appends]
  end.

Lemma appends_collect_traffic_data (roads : Roads) : appends (collect_traffic_data roads).
Proof. unfold collect_traffic_data. repeat appends_step. Qed.

Lemma appends_traffic_command (roads : Roads) : appends (traffic_command roads).
Proof. unfold traffic_command. repeat appends_step. Qed.

Lemma appends_handle_text (text : string) : appends (handle_text text).
Proof. unfold handle_text. repeat appends_step. Qed.

Lemma appends_handle_location (loc : Dict) : appends (handle_location loc).
Proof. unfold handle_location. repeat appends_step. Qed.

Lemma appends_stats_command (sqlite_now : Z) : appends (stats_command sqlite_now).
Proof. unfold stats_command. repeat appends_step. Qed.

Lemma appends_run_op (op : Op) : appends (run_op op).
Proof.
  destruct op; cbn [run_op].
  - apply appends_emit.
  - apply appends_traffic_command.
  - apply appends_stats_command.
  - apply appends_handle_location.
  - apply appends_handle_text.
  - apply appends_collect_traffic_data.
Qed.

Lemma next_id_above (db : Table) (r : HistoryRow) : In r db -> id r < next_id db.
Proof.
  unfold next_id. induction db as [|r' db IH]; intros Hin; [destruct Hin|].
  cbn [map fold_right]. destruct Hin as [->|Hin]; [lia|]. specialize (IH Hin). lia.
Qed.

(** C8: the history is append-only.  [store_traffic_data] adds exactly one
    row, at the end, holding the Observation under a fresh key, and leaves
    every stored row as it was; storing the same Observation twice gives
    two rows; and no operation of the bot, nor any run of operations,
    changes or removes a stored row. *)
Theorem traffic_history_append_only :
  (forall db td,
      exists row,
        store_traffic_data db td = db ++ [row] /\
        observation row = td /\
        (forall r, In r db -> id r < id row)) /\
  (forall db td, List.length (store_traffic_data db td) = S (List.length db)) /\
  (forall db td i r,
      nth_error db i = Some r -> nth_error (store_traffic_data db td) i = Some r) /\
  (forall db td,
      exists r1 r2,
        store_traffic_data (store_traffic_data db td) td = db ++ [r1; r2] /\
        observation r1 = td /\ observation r2 = td /\ id r1 <> id r2) /\
  (forall op env s,
      exists rows, traffic_history (snd (run_op op env s)) = traffic_history s ++ rows) /\
  (forall ops s,
      exists rows, traffic_history (run_ops ops s) = traffic_history s ++ rows).
Proof.
  split; [|split; [|split; [|split; [|split]]]].
  - intros db td. exists {| id := next_id db; observation := td |}.
    split; [reflexivity|]. split; [reflexivity|]. apply next_id_above.
  - intros db td. unfold store_traffic_data. rewrite length_app. cbn. lia.
  - intros db td i r H. unfold store_traffic_data.
    rewrite nth_error_app1; [exact H|]. apply nth_error_Some. congruence.
  - intros db td.
    exists {| id := next_id db; observation := td |}.
    exists {| id := next_id (store_traffic_data db td); observation := td |}.
    split; [unfold store_traffic_data; now rewrite <- app_assoc|].
    split; [reflexivity|]. split; [reflexivity|]. cbn [id].
    assert (H : id {| id := next_id db; observation := td |}
                < next_id (store_traffic_data db td)).
    { apply next_id_above. unfold store_traffic_data. apply in_or_app. right. now left. }
    cbn [id] in H. lia.
  - intros op env s. apply appends_run_op.
  - induction ops as [|[op env] ops IH]; intros s; cbn [run_ops].
    + exists []. now rewrite app_nil_r.
    + destruct (appends_run_op op env s) as (rows1 & H1).
      destruct (IH (snd (run_op op env s))) as (rows2 & H2).
      exists (rows1 ++ rows2). now rewrite H2, H1, app_assoc.
Qed.

Lemma traffic_history_append_only_witness :
  nth_error (store_traffic_data history_100 (sample_observation 100 10)) 0
  = Some {| id := 1; observation := sample_observation 100 10 |} /\
  map observation (store_traffic_data history_100 (sample_observation 100 10))
  = [sample_observation 100 10; sample_observation 100 10].
Proof.
  destruct traffic_history_append_only as (_ & _ & Hkeep & _).
  split; [|reflexivity].
  apply Hkeep. reflexivity.
Defined.

(** ** On-demand route query *)

Lemma external_calls_app (tr1 tr2 : list Event) :
  external_calls (tr1 ++ tr2) = external_calls tr1 ++ external_calls tr2.
Proof.
  unfold external_calls. apply filter_app.
Qed.

(** C10: without a stored origin, [handle_text] answers with the prompt to
    share a location and returns: it sends no geocoding and no directions
    request and leaves the table as it was. *)
Theorem handle_text_without_origin (env : Env) (s : BotState) (text : string) :
  dict_contains (user_data s) "user_location" = false ->
  handle_text text env s = (Ok tt, add_events s [EvReply MsgShareLocationFirst]) /\
  traffic_history (snd (handle_text text env s)) = traffic_history s /\
  external_calls (trace (snd (handle_text text env s))) = external_calls (trace s).
Proof.
  intros Hno.
  assert (Hrun : handle_text text env s
                 = (Ok tt, add_events s [EvReply MsgShareLocationFirst])).
  { unfold handle_text, bind, read_user_data. rewrite Hno. reflexivity. }
  rewrite Hrun. split; [reflexivity|]. split; [reflexivity|].
  cbn [snd add_events trace]. rewrite external_calls_app. cbn. apply app_nil_r.
Qed.

Lemma handle_text_without_origin_witness :
  handle_text "Monas" (constant_env (HttpJson (ok_response 1200 900))) history_state
  = (Ok tt, add_events history_state [EvReply MsgShareLocationFirst]).
Proof.
  refine (proj1 (handle_text_without_origin
                   (constant_env (HttpJson (ok_response 1200 900)))
                   history_state "Monas" _)).
  reflexivity.
Defined.

(** With an origin stored the handler does go to the geocoder; here the
    geocoder is down, so the user is told the destination was not found. *)
Example handle_text_with_origin_geocodes :
  handle_text "Monas" (constant_env (HttpJson (ok_response 1200 900))) located_state
  = (Ok tt,
     add_events located_state
       [ EvGeocode "Monas, Jakarta, Indonesia";
         EvLogError "Geocoding error" RequestException;
         EvReply MsgDestinationNotFound ]).
Proof. reflexivity. Qed.

(** ** Checks of the model on concrete values *)

Example calculate_severity_one_third : calculate_severity (300 # 900) = Ok "heavy".
Proof. reflexivity. Qed.

Example calculate_severity_above_060 : calculate_severity (61 # 100) = Ok "severe".
Proof. reflexivity. Qed.

Example format_percent_1_two_thirds : format_percent_1 (2 # 3) = "66.7%".
Proof. reflexivity. Qed.

Example title_heavy : title "heavy" = "Heavy".
Proof. reflexivity. Qed.

Example sweep_thamrin_down_rows :
  map (fun r => (id r, location (observation r), severity (observation r)))
      (traffic_history
         (snd (collect_traffic_data major_roads thamrin_down_env initial_state)))
  = [ (1, "-6.2088,106.8456--6.2297,106.8269", "heavy");
      (2, "-6.2297,106.8269--6.2615,106.7942", "heavy");
      (3, "-6.1745,106.8227--6.3139,107.1614", "heavy");
      (4, "-6.2297,106.8269--6.2383,106.8411", "heavy") ].
Proof. reflexivity. Qed.

(** * Further properties of the code *)

(** ** The bands of the classifier *)

(** X1: the four labels partition the ratios: normal is exactly
    r <= 0.15, moderate exactly 0.15 < r <= 0.30, heavy exactly
    0.30 < r <= 0.60 and severe exactly r > 0.60. *)
Theorem calculate_severity_bands (r : Q) :
  (calculate_severity r = Ok "normal" <-> (r <= 15 # 100)%Q) /\
  (calculate_severity r = Ok "moderate" <-> (15 # 100 < r)%Q /\ (r <= 30 # 100)%Q) /\
  (calculate_severity r = Ok "heavy" <-> (30 # 100 < r)%Q /\ (r <= 60 # 100)%Q) /\
  (calculate_severity r = Ok "severe" <-> (60 # 100 < r)%Q).
Proof.
  rewrite calculate_severity_band. unfold band.
  destruct (Qle_bool r (15 # 100)) eqn:E1;
    [apply Qle_bool_iff in E1|apply Qle_bool_false_lt in E1];
  (destruct (Qle_bool r (30 # 100)) eqn:E2;
    [apply Qle_bool_iff in E2|apply Qle_bool_false_lt in E2]);
  (destruct (Qle_bool r (60 # 100)) eqn:E3;
    [apply Qle_bool_iff in E3|apply Qle_bool_false_lt in E3]);
  repeat split; try discriminate; try (intros; lra); intros; exfalso; lra.
Qed.

(** ** What the fetcher returns, and what it logs *)

Lemma fetched_some_inv (env : Env) (origin destination : Dict) (td : TrafficData) :
  fetched env origin destination = Some td ->
  exists data route0 more_routes leg0 more_legs,
    directions_api env (coord_param origin) (coord_param destination) = HttpJson data /\
    status data = Some "OK" /\
    routes data = Some (route0 :: more_routes) /\
    legs route0 = leg0 :: more_legs /\
    leg_duration_in_traffic leg0 = Some (duration_in_traffic td) /\
    leg_duration leg0 = Some (duration_normal td) /\
    location td = location_key origin destination /\
    timestamp td = now env /\
    well_formed_observation td.
Proof.
  unfold fetched, fetch_outcome. intros H.
  destruct (directions_api env (coord_param origin) (coord_param destination))
    as [|data]; [discriminate H|].
  cbn [http_json rbind] in H. unfold traffic_data_of_json in H.
  destruct (status data) as [st|] eqn:Hst; [|discriminate H].
  cbn [opt_getitem rbind] in H.
  destruct (String.eqb_spec st "OK") as [->|Hne]; [|discriminate H].
  cbn [negb] in H.
  destruct (routes data) as [[|route0 more_routes]|] eqn:Hroutes; try discriminate H.
  cbn [opt_getitem rbind] in H. unfold list_getitem in H. cbn [nth_error rbind] in H.
  destruct (legs route0) as [|leg0 more_legs] eqn:Hlegs; [discriminate H|].
  cbn [nth_error rbind] in H.
  destruct (leg_duration_in_traffic leg0) as [dit|] eqn:Hdit; [|discriminate H].
  destruct (leg_duration leg0) as [dn|] eqn:Hdn; [|discriminate H].
  cbn [opt_getitem rbind] in H. unfold truediv in H.
  destruct (Qeq_bool (inject_Z dn) 0) eqn:Hz; [discriminate H|].
  cbn [rbind] in H. rewrite calculate_severity_band in H. cbn [rbind] in H.
  injection H as <-.
  exists data, route0, more_routes, leg0, more_legs.
  unfold well_formed_observation.
  cbn [location duration_in_traffic duration_normal timestamp severity].
  repeat split; try reflexivity; try assumption.
  - intros E. rewrite E in Hz. discriminate Hz.
  - apply band_is_label.
  - apply calculate_severity_band.
Qed.

(** X2: [get_traffic_data] returns an Observation only for a response with
    status OK whose first route has a first leg with both durations and a
    nonzero baseline; the Observation then carries exactly these two
    durations, the key of the two end points, the clock's instant, and the
    label the classifier gives their ratio. *)
Theorem get_traffic_data_some_inv (env : Env) (s : BotState)
    (origin destination : Dict) (td : TrafficData) :
  fst (get_traffic_data origin destination env s) = Ok (Some td) ->
  exists data route0 more_routes leg0 more_legs,
    directions_api env (coord_param origin) (coord_param destination) = HttpJson data /\
    status data = Some "OK" /\
    routes data = Some (route0 :: more_routes) /\
    legs route0 = leg0 :: more_legs /\
    leg_duration_in_traffic leg0 = Some (duration_in_traffic td) /\
    leg_duration leg0 = Some (duration_normal td) /\
    location td = location_key origin destination /\
    timestamp td = now env /\
    well_formed_observation td.
Proof.
  rewrite get_traffic_data_run. cbn [fst]. intros [= H].
  now apply fetched_some_inv.
Qed.

Lemma get_traffic_data_some_inv_witness :
  exists data route0 more_routes leg0 more_legs,
    directions_api (constant_env (HttpJson (ok_response 1200 900)))
      (coord_param sudirman_origin) (coord_param sudirman_destination) = HttpJson data /\
    status data = Some "OK" /\
    routes data = Some (route0 :: more_routes) /\
    legs route0 = leg0 :: more_legs /\
    leg_duration_in_traffic leg0 = Some 1200 /\
    leg_duration leg0 = Some 900 /\
    "-6.2088,106.8456--6.2297,106.8269" = location_key sudirman_origin sudirman_destination /\
    1000 = now (constant_env (HttpJson (ok_response 1200 900))) /\
    well_formed_observation
      {| location := "-6.2088,106.8456--6.2297,106.8269";
         duration_in_traffic := 1200;
         duration_normal := 900;
         timestamp := 1000;
         severity := "heavy" |}.
Proof.
  apply (get_traffic_data_some_inv
           (constant_env (HttpJson (ok_response 1200 900))) initial_state
           sudirman_origin sudirman_destination
           {| location := "-6.2088,106.8456--6.2297,106.8269";
              duration_in_traffic := 1200;
              duration_normal := 900;
              timestamp := 1000;
              severity := "heavy" |}).
  reflexivity.
Defined.

(** X3: the failures of a fetch and what is logged.  A transport failure
    and a response without the expected keys or without a leg return [None]
    with one error line naming the exception; a status other than OK and an
    empty route list return [None] with no log line at all.  In every case
    one directions request went out and nothing else changed. *)
Theorem get_traffic_data_failure_logging (env : Env) (s : BotState)
    (origin destination : Dict) :
  let request := EvDirections (coord_param origin) (coord_param destination) in
  let logged e :=
    (Ok (@None TrafficData),
     add_events s [request; EvLogError "Error getting traffic data" e]) in
  let silent := (Ok (@None TrafficData), add_events s [request]) in
  let answer := directions_api env (coord_param origin) (coord_param destination) in
  (answer = HttpFailed ->
   get_traffic_data origin destination env s = logged RequestException) /\
  (forall rs, answer = HttpJson (directions_answer None rs) ->
   get_traffic_data origin destination env s = logged (KeyError "status")) /\
  (forall st rs, answer = HttpJson (directions_answer (Some st) rs) -> st <> "OK" ->
   get_traffic_data origin destination env s = silent) /\
  (answer = HttpJson (directions_answer (Some "OK") None) ->
   get_traffic_data origin destination env s = logged (KeyError "routes")) /\
  (answer = HttpJson (directions_answer (Some "OK") (Some [])) ->
   get_traffic_data origin destination env s = silent) /\
  (forall more, answer = HttpJson (directions_answer (Some "OK")
                                     (Some ({| legs := [] |} :: more))) ->
   get_traffic_data origin destination env s = logged IndexError) /\
  (forall dn more_legs more,
      answer = HttpJson (directions_answer (Some "OK")
                 (Some ({| legs := {| leg_duration_in_traffic := None;
                                      leg_duration := dn |} :: more_legs |} :: more))) ->
   get_traffic_data origin destination env s = logged (KeyError "duration_in_traffic")) /\
  (forall dit more_legs more,
      answer = HttpJson (directions_answer (Some "OK")
                 (Some ({| legs := {| leg_duration_in_traffic := Some dit;
                                      leg_duration := None |} :: more_legs |} :: more))) ->
   get_traffic_data origin destination env s = logged (KeyError "duration")).
Proof.
  cbv zeta.
  repeat split; intros; rewrite get_traffic_data_run;
    unfold fetched, fetch_events, fetch_outcome;
    match goal with
    | H : directions_api _ _ _ = _ |- _ => rewrite H
    end; cbn [http_json rbind]; try reflexivity.
  unfold traffic_data_of_json, directions_answer. cbn [status opt_getitem rbind].
  destruct (String.eqb_spec st "OK") as [E|E]; [contradiction|reflexivity].
Qed.

Lemma get_traffic_data_failure_logging_witness :
  get_traffic_data sudirman_origin sudirman_destination
    (constant_env (HttpJson (directions_answer (Some "ZERO_RESULTS") (Some []))))
    initial_state
  = (Ok None,
     add_events initial_state
       [EvDirections (coord_param sudirman_origin) (coord_param sudirman_destination)]).
Proof.
  destruct (get_traffic_data_failure_logging
              (constant_env (HttpJson (directions_answer (Some "ZERO_RESULTS") (Some []))))
              initial_state sudirman_origin sudirman_destination)
    as (_ & _ & Hstatus & _).
  apply (Hstatus "ZERO_RESULTS" (Some [])); [reflexivity|discriminate].
Defined.

(** ** Geocoding *)

(** The whole of [geocode_address]. *)
Lemma geocode_address_run (env : Env) (s : BotState) (address : string) :
  geocode_address address env s
  = (Ok (geocoded env address), add_events s (geocode_events env address)).
Proof.
  unfold geocode_address, try_except, requests_get_geocode, bind, emit,
    lift_result, logger_error, ret, geocoded, geocode_events, geocode_outcome,
    add_events.
  cbn.
  destruct (geocode_api env (address ++ ", Jakarta, Indonesia")%string) as [|data]; cbn.
  { now rewrite <- app_assoc. }
  destruct (geo_status data) as [st|]; cbn; [|now rewrite <- app_assoc].
  destruct (negb (String.eqb st "OK")); cbn; [reflexivity|].
  destruct (geo_results data) as [[|r0 rs]|]; cbn;
    [reflexivity| |now rewrite <- app_assoc].
  destruct r0 as [loc|]; cbn; [reflexivity|now rewrite <- app_assoc].
Qed.

(** X4: [geocode_address] asks the geocoder once, for the address followed
    by ", Jakarta, Indonesia", and never raises.  It returns the location
    of the first result when the status is OK, and [None] otherwise: with
    an error line when the request fails, without one when the status is
    not OK or there is no result.  The table and the stored origin are
    untouched. *)
Theorem geocode_address_first_result (env : Env) (s : BotState) (address : string) :
  let request := EvGeocode (address ++ ", Jakarta, Indonesia")%string in
  let answer := geocode_api env (address ++ ", Jakarta, Indonesia")%string in
  (exists v evs,
      geocode_address address env s = (Ok v, add_events s (request :: evs)) /\
      external_calls (request :: evs) = [request]) /\
  (forall loc more,
      answer = HttpJson {| geo_status := Some "OK";
                           geo_results := Some (Some loc :: more) |} ->
      geocode_address address env s = (Ok (Some loc), add_events s [request])) /\
  (answer = HttpFailed ->
   geocode_address address env s
   = (Ok None, add_events s [request; EvLogError "Geocoding error" RequestException])) /\
  (forall st rs,
      answer = HttpJson {| geo_status := Some st; geo_results := rs |} -> st <> "OK" ->
      geocode_address address env s = (Ok None, add_events s [request])) /\
  (answer = HttpJson {| geo_status := Some "OK"; geo_results := Some [] |} ->
   geocode_address address env s = (Ok None, add_events s [request])).
Proof.
  cbv zeta. rewrite geocode_address_run.
  unfold geocoded, geocode_events, geocode_outcome.
  split; [|repeat split].
  - do 2 eexists. split; [reflexivity|].
    now destruct (rbind _ _).
  - intros loc more ->. cbn. now destruct loc.
  - intros ->. reflexivity.
  - intros st rs -> Hne. cbn.
    destruct (String.eqb_spec st "OK") as [E|E]; [contradiction|reflexivity].
  - intros ->. reflexivity.
Qed.

Lemma geocode_address_first_result_witness :
  geocode_address "Monas" (resolving_env sudirman_destination HttpFailed) initial_state
  = (Ok (Some sudirman_destination),
     add_events initial_state [EvGeocode "Monas, Jakarta, Indonesia"]).
Proof.
  destruct (geocode_address_first_result
              (resolving_env sudirman_destination HttpFailed) initial_state "Monas")
    as (_ & Hfirst & _).
  apply (Hfirst sudirman_destination []). reflexivity.
Defined.

(** ** The stored origin and the route query *)

Lemma dict_contains_getitem {V} (d : list (string * V)) (k : string) :
  dict_contains d k = true -> exists v, dict_getitem d k = Ok v.
Proof.
  induction d as [|[k' v'] d IH]; cbn; [discriminate|].
  destruct (String.eqb k' k); cbn; [intros _; now exists v'|exact IH].
Qed.

Lemma dict_getitem_contains {V} (d : list (string * V)) (k : string) (v : V) :
  dict_getitem d k = Ok v -> dict_contains d k = true.
Proof.
  induction d as [|[k' v'] d IH]; cbn; [discriminate|].
  destruct (String.eqb k' k); cbn; [reflexivity|exact IH].
Qed.

Lemma dict_getitem_setitem {V} (d : list (string * V)) (k : string) (v : V) :
  dict_getitem (dict_setitem d k v) k = Ok v.
Proof.
  induction d as [|[k' v'] d IH]; cbn.
  - now rewrite String.eqb_refl.
  - destruct (String.eqb k' k) eqn:E; cbn.
    + now rewrite String.eqb_refl.
    + now rewrite E.
Qed.

Lemma dict_setitem_twice {V} (d : list (string * V)) (k : string) (v1 v2 : V) :
  dict_setitem (dict_setitem d k v1) k v2 = dict_setitem d k v2.
Proof.
  induction d as [|[k' v'] d IH]; cbn.
  - now rewrite String.eqb_refl.
  - destruct (String.eqb k' k) eqn:E; cbn.
    + now rewrite String.eqb_refl.
    + now rewrite E, IH.
Qed.

Lemma is_traffic_unusual_total (db : Table) (t_now cur : Z) (loc : string) :
  exists flag msg, is_traffic_unusual db t_now cur loc = Ok (flag, msg).
Proof.
  rewrite is_traffic_unusual_cases.
  destruct (get_historical_average db t_now loc 30) as [h|]; cbv zeta.
  - destruct (Qle_bool _ (5 # 10)); do 2 eexists; reflexivity.
  - do 2 eexists; reflexivity.
Qed.

(** The whole of [handle_text] once an origin is stored. *)
Lemma handle_text_run (env : Env) (s : BotState) (text : string) (origin : Dict) :
  dict_getitem (user_data s) "user_location" = Ok origin ->
  handle_text text env s =
  match geocoded env text with
  | None =>
    (Ok tt, add_events s (geocode_events env text ++ [EvReply MsgDestinationNotFound]))
  | Some dest =>
    match fetched env origin dest with
    | None =>
      (Ok tt,
       add_events s (geocode_events env text ++ fetch_events env origin dest
                     ++ [EvReply MsgRouteUnavailable]))
    | Some td =>
      (Ok tt,
       add_events (set_history s (store_traffic_data (traffic_history s) td))
         (geocode_events env text ++ fetch_events env origin dest
          ++ [EvReply (route_reply text (traffic_history s) (now env) td)]))
    end
  end.
Proof.
  intros Horigin.
  unfold handle_text. unfold bind at 1. unfold read_user_data.
  rewrite (dict_getitem_contains _ _ _ Horigin). cbn [negb].
  unfold bind at 1. rewrite geocode_address_run.
  destruct (geocoded env text) as [dest|].
  2:{ unfold reply_text, emit, add_events. cbn. now rewrite <- app_assoc. }
  unfold bind at 1. unfold lift_result at 1.
  cbn [add_events user_data]. rewrite Horigin.
  unfold bind at 1. rewrite get_traffic_data_run.
  destruct (fetched env origin dest) as [td|].
  2:{ unfold reply_text, emit, add_events. cbn. now rewrite <- !app_assoc. }
  unfold route_reply, unusual_note.
  destruct (is_traffic_unusual_total (traffic_history s) (now env)
              (duration_in_traffic td) (location td)) as (flag & msg & E).
  unfold call_is_traffic_unusual, call_store_traffic_data, write_history,
    read_history, datetime_now, lift_result, reply_text, emit, bind,
    add_events, set_history.
  cbn. rewrite E. cbn. rewrite <- !app_assoc. now destruct flag.
Qed.

Lemma external_calls_geocode (env : Env) (address : string) :
  external_calls (geocode_events env address)
  = [EvGeocode (address ++ ", Jakarta, Indonesia")%string].
Proof.
  unfold geocode_events. cbn. now destruct (geocode_outcome env address).
Qed.

Lemma external_calls_fetch (env : Env) (origin destination : Dict) :
  external_calls (fetch_events env origin destination)
  = [EvDirections (coord_param origin) (coord_param destination)].
Proof.
  unfold fetch_events. cbn. now destruct (fetch_outcome env origin destination).
Qed.

Lemma replies_app (tr1 tr2 : list Event) :
  replies (tr1 ++ tr2) = replies tr1 ++ replies tr2.
Proof.
  unfold replies. apply flat_map_app.
Qed.

Lemma replies_geocode (env : Env) (address : string) :
  replies (geocode_events env address) = [].
Proof.
  unfold geocode_events. cbn. now destruct (geocode_outcome env address).
Qed.

Lemma replies_fetch (env : Env) (origin destination : Dict) :
  replies (fetch_events env origin destination) = [].
Proof.
  unfold fetch_events. cbn. now destruct (fetch_outcome env origin destination).
Qed.

(** X5: sharing a location stores it as the origin without touching the
    table, and sharing again replaces it.  A text message that follows is
    treated as a destination: it is geocoded, and a directions request, if
    one goes out, starts at the shared location. *)
Theorem handle_location_then_text (env1 env2 : Env) (s : BotState) (loc : Dict)
    (text : string) :
  let s1 := snd (handle_location loc env1 s) in
  fst (handle_location loc env1 s) = Ok tt /\
  traffic_history s1 = traffic_history s /\
  dict_getitem (user_data s1) "user_location" = Ok loc /\
  (forall loc2 env3,
      user_data (snd (handle_location loc2 env3 s1))
      = user_data (snd (handle_location loc2 env3 s))) /\
  exists evs,
    trace (snd (handle_text text env2 s1)) = trace s1 ++ evs /\
    external_calls evs
    = EvGeocode (text ++ ", Jakarta, Indonesia")%string
      :: match geocoded env2 text with
         | Some dest => [EvDirections (coord_param loc) (coord_param dest)]
         | None => []
         end.
Proof.
  cbv zeta.
  assert (Hget : dict_getitem (user_data (snd (handle_location loc env1 s)))
                   "user_location" = Ok loc)
    by (cbn; apply dict_getitem_setitem).
  split; [reflexivity|]. split; [reflexivity|]. split; [exact Hget|]. split.
  - intros loc2 env3. cbn. apply dict_setitem_twice.
  - rewrite (handle_text_run env2 _ text loc Hget).
    destruct (geocoded env2 text) as [dest|].
    + destruct (fetched env2 loc dest) as [td|]; eexists; (split; [reflexivity|]);
        rewrite !external_calls_app, external_calls_geocode, external_calls_fetch;
        reflexivity.
    + eexists. split; [reflexivity|].
      rewrite external_calls_app, external_calls_geocode. reflexivity.
Qed.




(** ** The report of /traffic *)

(** The whole of [traffic_command]. *)
Lemma traffic_command_run (env : Env) (roads : Roads) (s : BotState) :
  exists evs,
    traffic_command roads env s
    = (Ok tt,
       add_events
         (set_history s (record_all (traffic_history s) (road_observations env roads)))
         (EvReply MsgCheckingTraffic
          :: evs ++ [EvReply (MsgTrafficReport
                                (traffic_report_entries env roads (traffic_history s)))]))
    /\ directions_requests evs = map road_request roads
    /\ replies evs = [].
Proof.
  unfold traffic_command.
  match goal with
  | |- context [for_each_acc roads [] ?b] => set (body := b)
  end.
  assert (Hloop : forall rs acc s0, exists evs,
             for_each_acc rs acc body env s0
             = (Ok (acc ++ traffic_report_entries env rs (traffic_history s0)),
                add_events
                  (set_history s0 (record_all (traffic_history s0) (road_observations env rs)))
                  evs)
             /\ directions_requests evs = map road_request rs
             /\ replies evs = []).
  { induction rs as [|[road_name [c0 c1]] rs IH]; intros acc s0.
    - exists []. split; [|split; reflexivity].
      destruct s0. unfold add_events, set_history, ret. cbn. now rewrite !app_nil_r.
    - cbn [for_each_acc]. unfold bind at 1. unfold body at 1. unfold bind at 1.
      rewrite get_traffic_data_run.
      cbn [road_observations flat_map fst snd map traffic_report_entries].
      fold (road_observations env rs).
      destruct (fetched env c0 c1) as [td|].
      + destruct (is_traffic_unusual_total (store_traffic_data (traffic_history s0) td)
                    (now env) (duration_in_traffic td) (location td))
          as (flag & msg & E).
        unfold call_store_traffic_data, call_is_traffic_unusual, write_history,
          read_history, datetime_now, lift_result, ret, bind.
        cbn [add_events traffic_history user_data trace]. rewrite E.
        match goal with
        | |- context [for_each_acc rs ?a body env ?s1] =>
          destruct (IH a s1) as (evs & Hrun & Hreq & Hrep)
        end.
        rewrite Hrun.
        exists (fetch_events env c0 c1 ++ evs).
        split; [|split].
        * unfold add_events, set_history, unusual_note.
          cbn [traffic_history user_data trace app]. rewrite E.
          rewrite <- !app_assoc. cbn [app]. now destruct flag.
        * rewrite directions_requests_app, directions_requests_fetch, Hreq. reflexivity.
        * rewrite replies_app, replies_fetch, Hrep. reflexivity.
      + unfold ret.
        match goal with
        | |- context [for_each_acc rs ?a body env ?s1] =>
          destruct (IH a s1) as (evs & Hrun & Hreq & Hrep)
        end.
        rewrite Hrun.
        exists (fetch_events env c0 c1 ++ evs).
        split; [|split].
        * unfold add_events, set_history. cbn. rewrite <- !app_assoc. reflexivity.
        * rewrite directions_requests_app, directions_requests_fetch, Hreq. reflexivity.
        * rewrite replies_app, replies_fetch, Hrep. reflexivity. }
  unfold bind at 1. unfold reply_text at 1. unfold emit at 1.
  unfold bind at 1.
  match goal with
  | |- context [for_each_acc roads [] body env ?s1] =>
    destruct (Hloop roads [] s1) as (evs & Hrun & Hreq & Hrep)
  end.
  rewrite Hrun. exists evs. split; [|split; assumption].
  unfold reply_text, emit, add_events, set_history. cbn.
  rewrite <- !app_assoc. reflexivity.
Qed.

Lemma traffic_report_entries_rows (env : Env) (roads : Roads) (db : Table) :
  map entry_road (traffic_report_entries env roads db) = successful_road_names env roads /\
  map (fun e => (entry_severity e, entry_duration_mins e, entry_normal_mins e))
      (traffic_report_entries env roads db)
  = map (fun td => (severity td, duration_in_traffic td / 60, duration_normal td / 60))
        (road_observations env roads).
Proof.
  revert db. induction roads as [|[road_name [c0 c1]] roads IH]; intros db.
  - split; reflexivity.
  - cbn [traffic_report_entries successful_road_names road_observations flat_map fst snd].
    fold (successful_road_names env roads). fold (road_observations env roads).
    destruct (fetched env c0 c1) as [td|].
    + destruct (IH (store_traffic_data db td)) as (H1 & H2).
      cbn. now rewrite H1, H2.
    + apply IH.
Qed.

(** X8: [/traffic] never raises.  It sends the "checking" reply and then
    one report; it asks for directions once per road, in order, and stores
    exactly the rows a sweep in the same world stores.  The report has one
    entry per stored row, in order, with the road's name, the row's
    severity and its two durations in whole minutes (rounded down); a road
    whose fetch fails has no entry. *)
Theorem traffic_command_report (env : Env) (roads : Roads) (s : BotState) :
  fst (traffic_command roads env s) = Ok tt /\
  traffic_history (snd (traffic_command roads env s))
  = traffic_history (snd (collect_traffic_data roads env s)) /\
  directions_requests (trace (snd (traffic_command roads env s)))
  = directions_requests (trace s) ++ map road_request roads /\
  exists entries,
    replies (trace (snd (traffic_command roads env s)))
    = replies (trace s) ++ [MsgCheckingTraffic; MsgTrafficReport entries] /\
    map entry_road entries = successful_road_names env roads /\
    map (fun e => (entry_severity e, entry_duration_mins e, entry_normal_mins e)) entries
    = map (fun td => (severity td, duration_in_traffic td / 60, duration_normal td / 60))
          (road_observations env roads) /\
    (forall e, In e entries ->
       exists td, In td (road_observations env roads) /\
         60 * entry_duration_mins e <= duration_in_traffic td
           < 60 * entry_duration_mins e + 60).
Proof.
  destruct (traffic_command_run env roads s) as (evs & Hrun & Hreq & Hrep).
  destruct (collect_traffic_data_run env roads s) as (evs' & Hrun' & _).
  rewrite Hrun, Hrun'. cbn [fst snd add_events set_history traffic_history trace].
  split; [reflexivity|]. split; [reflexivity|]. split.
  - rewrite directions_requests_app. cbn [directions_requests flat_map app].
    fold (directions_requests (evs ++ [EvReply (MsgTrafficReport
           (traffic_report_entries env roads (traffic_history s)))])).
    now rewrite directions_requests_app, Hreq, app_nil_r.
  - exists (traffic_report_entries env roads (traffic_history s)).
    destruct (traffic_report_entries_rows env roads (traffic_history s)) as (Hn & Hrows).
    split; [|split; [exact Hn|split; [exact Hrows|]]].
    + rewrite replies_app. cbn [replies flat_map app].
      fold (replies (evs ++ [EvReply (MsgTrafficReport
             (traffic_report_entries env roads (traffic_history s)))])).
      now rewrite replies_app, Hrep.
    + intros e He.
      apply (in_map (fun e => (entry_severity e, entry_duration_mins e,
                               entry_normal_mins e))) in He.
      rewrite Hrows in He. apply in_map_iff in He. destruct He as (td & Heq & Htd).
      exists td. split; [exact Htd|].
      injection Heq as _ Hm _. rewrite <- Hm.
      pose proof (Z.mod_pos_bound (duration_in_traffic td) 60 eq_refl).
      pose proof (Z.div_mod (duration_in_traffic td) 60). lia.
Qed.

Lemma Zsum_single_mean (d : Z) :
  (inject_Z (Zsum [d]) / inject_Z (Z.of_nat (List.length [d])) == inject_Z d)%Q.
Proof.
  unfold Zsum. cbn [fold_right List.length].
  change (Z.of_nat 1) with 1. unfold Qdiv.
  assert (H : (/ inject_Z 1 == 1)%Q) by reflexivity.
  rewrite H, Z.add_0_r. ring.
Qed.

(** An Observation compared with a table in which it is the only recent
    row of its key is compared with itself. *)
Lemma unusual_note_own_row (db : Table) (t_now : Z) (td : TrafficData) :
  no_recent_row db t_now (location td) ->
  t_now - timedelta_days 30 < timestamp td ->
  unusual_note (store_traffic_data db td) t_now td = None.
Proof.
  intros Hnone Hin. unfold unusual_note.
  rewrite is_traffic_unusual_cases.
  unfold get_historical_average, select_avg_duration, store_traffic_data. cbv zeta.
  rewrite filter_app, filter_none.
  2:{ intros r Hr. unfold where_location_since.
      destruct (String.eqb_spec (location (observation r)) (location td)) as [E|E];
        [|reflexivity].
      cbn [andb]. apply Z.ltb_ge. specialize (Hnone r Hr E). lia. }
  assert (Hw : where_location_since (location td) (t_now - timedelta_days 30)
                 {| id := next_id db; observation := td |} = true).
  { unfold where_location_since. cbn [observation].
    rewrite String.eqb_refl. cbn [andb]. now apply Z.ltb_lt. }
  cbn [app filter]. rewrite Hw.
  cbn [map observation sql_avg opt_float_truthy].
  set (h := (inject_Z (Zsum [duration_in_traffic td])
             / inject_Z (Z.of_nat (List.length [duration_in_traffic td])))%Q).
  destruct (float_truthy h); [|reflexivity].
  assert (Hh : (h == inject_Z (duration_in_traffic td))%Q) by apply Zsum_single_mean.
  assert (Hr : Qle_bool ((inject_Z (duration_in_traffic td) - h) / h) (5 # 10) = true).
  { apply Qle_bool_iff.
    assert (E : ((inject_Z (duration_in_traffic td) - h) / h == 0)%Q).
    { rewrite Hh. unfold Qdiv. ring. }
    rewrite E. qcmp. }
  now rewrite Hr.
Qed.

Lemma traffic_report_entries_no_warning (env : Env) (roads : Roads) (db : Table) :
  NoDup (map road_key roads) ->
  (forall road, In road roads -> no_recent_row db (now env) (road_key road)) ->
  Forall (fun e => entry_unusual e = None) (traffic_report_entries env roads db).
Proof.
  revert db. induction roads as [|[road_name [c0 c1]] roads IH]; intros db Hnd Hnone.
  - constructor.
  - cbn [traffic_report_entries]. cbn [map] in Hnd. inversion Hnd as [|k ks Hk Hnd']; subst.
    destruct (fetched env c0 c1) as [td|] eqn:Hf.
    + destruct (fetched_some_inv _ _ _ _ Hf)
        as (? & ? & ? & ? & ? & _ & _ & _ & _ & _ & _ & Hloc & Hts & _).
      constructor.
      * cbn [entry_unusual]. apply unusual_note_own_row.
        -- rewrite Hloc. apply (Hnone (road_name, (c0, c1))). now left.
        -- rewrite Hts. unfold timedelta_days. lia.
      * apply IH; [exact Hnd'|].
        intros road Hroad r Hr Hkey. unfold store_traffic_data in Hr.
        apply in_app_or in Hr. destruct Hr as [Hr|[<-|[]]].
        -- apply (Hnone road (or_intror Hroad) r Hr Hkey).
        -- cbn [observation] in Hkey. exfalso. apply Hk.
           rewrite Hloc in Hkey. unfold road_key at 1. cbn [fst snd]. rewrite Hkey.
           now apply in_map.
    + apply IH; [exact Hnd'|]. intros road Hroad. apply Hnone. now right.
Qed.

(** X9: [/traffic] stores each Observation before it compares it, so the
    Observation is part of its own average.  When the roads have distinct
    keys and none of them has a row inside the 30-day window, no entry of
    the report carries a warning, whatever the durations are. *)
Theorem traffic_command_first_report_no_warning (env : Env) (roads : Roads)
    (s : BotState) :
  NoDup (map road_key roads) ->
  (forall road, In road roads ->
                no_recent_row (traffic_history s) (now env) (road_key road)) ->
  exists entries,
    replies (trace (snd (traffic_command roads env s)))
    = replies (trace s) ++ [MsgCheckingTraffic; MsgTrafficReport entries] /\
    Forall (fun e => entry_unusual e = None) entries.
Proof.
  intros Hnd Hnone.
  destruct (traffic_command_run env roads s) as (evs & Hrun & _ & Hrep).
  rewrite Hrun. cbn [snd add_events set_history trace].
  exists (traffic_report_entries env roads (traffic_history s)). split.
  - rewrite replies_app. cbn [replies flat_map app].
    fold (replies (evs ++ [EvReply (MsgTrafficReport
           (traffic_report_entries env roads (traffic_history s)))])).
    now rewrite replies_app, Hrep.
  - now apply traffic_report_entries_no_warning.
Qed.

Lemma traffic_command_first_report_no_warning_witness :
  exists entries,
    replies (trace (snd (traffic_command major_roads
                           (constant_env (HttpJson (ok_response 90000 900)))
                           initial_state)))
    = replies (trace initial_state) ++ [MsgCheckingTraffic; MsgTrafficReport entries] /\
    Forall (fun e => entry_unusual e = None) entries.
Proof.
  apply (traffic_command_first_report_no_warning
           (constant_env (HttpJson (ok_response 90000 900))) major_roads initial_state).
  - repeat constructor; cbn; intuition discriminate.
  - intros road _ r [].
Defined.

(** ** The comparator on real tables *)






(** ** What the average depends on *)

Lemma get_historical_average_of_selected (db db' : Table) (t_now : Z)
    (loc : string) (days_back : Z) :
  Permutation
    (filter (where_location_since loc (t_now - timedelta_days days_back)) db)
    (filter (where_location_since loc (t_now - timedelta_days days_back)) db') ->
  get_historical_average db t_now loc days_back
  = get_historical_average db' t_now loc days_back.
Proof.
  intros Hperm. unfold get_historical_average, select_avg_duration. cbv zeta.
  set (f := filter _ db) in *. set (f' := filter _ db') in *.
  assert (Hm : Permutation (map (fun r => duration_in_traffic (observation r)) f)
                           (map (fun r => duration_in_traffic (observation r)) f'))
    by now apply Permutation_map.
  assert (Hs : sql_avg (map (fun r => duration_in_traffic (observation r)) f)
               = sql_avg (map (fun r => duration_in_traffic (observation r)) f')).
  { destruct (map _ f) as [|v vs] eqn:E1; destruct (map _ f') as [|v' vs'] eqn:E2.
    - reflexivity.
    - apply Permutation_nil in Hm. discriminate Hm.
    - apply Permutation_sym, Permutation_nil in Hm. discriminate Hm.
    - cbn [sql_avg]. now rewrite (Zsum_permutation _ _ Hm), (Permutation_length Hm). }
  now rewrite Hs.
Qed.

(** X11: the average for a location depends only on the rows with exactly
    that key whose timestamp is after the cut-off: rows of any other key,
    and rows at or before the cut-off, can be added or removed anywhere in
    the table without changing it. *)
Theorem get_historical_average_ignores_other_rows (db1 extra db2 : Table)
    (t_now : Z) (loc : string) (days_back : Z) :
  (forall r, In r extra ->
             location (observation r) <> loc \/
             timestamp (observation r) <= t_now - timedelta_days days_back) ->
  get_historical_average (db1 ++ extra ++ db2) t_now loc days_back
  = get_historical_average (db1 ++ db2) t_now loc days_back.
Proof.
  intros Hextra. apply get_historical_average_of_selected.
  rewrite !filter_app, (filter_none _ extra); [reflexivity|].
  intros r Hr. unfold where_location_since.
  destruct (Hextra r Hr) as [Hloc|Hts].
  - destruct (String.eqb_spec (location (observation r)) loc); [contradiction|reflexivity].
  - apply andb_false_iff. right. now apply Z.ltb_ge.
Qed.

Lemma get_historical_average_ignores_other_rows_witness :
  get_historical_average
    ([] ++ [ {| id := 7; observation := sample_observation 5000 (20 - timedelta_days 30) |} ]
        ++ history_100)
    20 "-6.2088,106.8456--6.2297,106.8269" 30
  = get_historical_average ([] ++ history_100)
      20 "-6.2088,106.8456--6.2297,106.8269" 30.
Proof.
  apply (get_historical_average_ignores_other_rows []
           [ {| id := 7; observation := sample_observation 5000 (20 - timedelta_days 30) |} ]
           history_100 20 "-6.2088,106.8456--6.2297,106.8269" 30).
  intros r [<-|[]]. right. cbn. lia.
Defined.

(** X12: the average does not depend on the order of the rows of the
    table. *)
Theorem get_historical_average_permutation (db db' : Table) (t_now : Z)
    (loc : string) (days_back : Z) :
  Permutation db db' ->
  get_historical_average db t_now loc days_back
  = get_historical_average db' t_now loc days_back.
Proof.
  intros Hperm. apply get_historical_average_of_selected.
  clear -Hperm. induction Hperm as [|r l l' _ IH|r1 r2 l|l1 l2 l3 _ IH1 _ IH2]; cbn.
  - constructor.
  - destruct (where_location_since _ _ r); [now constructor|exact IH].
  - destruct (where_location_since _ _ r1), (where_location_since _ _ r2);
      try apply Permutation_refl. apply perm_swap.
  - eapply Permutation_trans; eassumption.
Qed.

Lemma get_historical_average_permutation_witness :
  get_historical_average
    [ {| id := 1; observation := sample_observation 600 10 |};
      {| id := 2; observation := sample_observation 900 20 |} ]
    30 "-6.2088,106.8456--6.2297,106.8269" 30
  = get_historical_average
      [ {| id := 2; observation := sample_observation 900 20 |};
        {| id := 1; observation := sample_observation 600 10 |} ]
      30 "-6.2088,106.8456--6.2297,106.8269" 30.
Proof.
  apply get_historical_average_permutation. apply perm_swap.
Defined.

(** ** What a sweep logs *)

(** The whole of a sweep, event by event. *)
Lemma collect_traffic_data_trace (env : Env) (roads : Roads) (s : BotState) :
  collect_traffic_data roads env s
  = (Ok tt,
     add_events
       (set_history s (record_all (traffic_history s) (road_observations env roads)))
       (EvLogInfo "Collecting traffic data for major roads..." :: sweep_events env roads)).
Proof.
  unfold collect_traffic_data.
  match goal with
  | |- context [for_each roads ?b] => set (body := b)
  end.
  assert (Hloop : forall rs s0,
             for_each rs body env s0
             = (Ok tt,
                add_events
                  (set_history s0 (record_all (traffic_history s0) (road_observations env rs)))
                  (sweep_events env rs))).
  { induction rs as [|[road_name [c0 c1]] rs IH]; intros s0.
    - destruct s0. unfold add_events, set_history. cbn. now rewrite app_nil_r.
    - cbn [for_each]. unfold bind at 1. unfold body at 1. unfold bind at 1.
      rewrite get_traffic_data_run.
      cbn [road_observations sweep_events flat_map fst snd].
      fold (road_observations env rs). fold (sweep_events env rs).
      destruct (fetched env c0 c1) as [td|].
      + unfold call_store_traffic_data, write_history, logger_info, emit, bind.
        cbn [add_events traffic_history user_data trace].
        rewrite IH. unfold add_events, set_history. cbn.
        rewrite <- !app_assoc. reflexivity.
      + unfold ret. rewrite IH. unfold add_events, set_history. cbn.
        rewrite <- !app_assoc. reflexivity. }
  unfold bind, logger_info, emit. rewrite Hloop.
  unfold add_events, set_history. cbn. rewrite <- app_assoc. reflexivity.
Qed.

Lemma sweep_events_logs (env : Env) (roads : Roads) :
  replies (sweep_events env roads) = [] /\
  external_calls (sweep_events env roads)
  = map (fun road => EvDirections (fst (road_request road)) (snd (road_request road))) roads /\
  info_logs (sweep_events env roads)
  = map (fun name => ("Stored traffic data for " ++ name)%string)
        (successful_road_names env roads) /\
  (List.length (error_logs (sweep_events env roads))
   <= List.length (failed_roads env roads))%nat.
Proof.
  induction roads as [|[road_name [c0 c1]] roads (IH1 & IH2 & IH3 & IH4)].
  - repeat split; constructor.
  - cbn [sweep_events successful_road_names failed_roads flat_map filter fst snd map].
    fold (sweep_events env roads). fold (successful_road_names env roads).
    fold (failed_roads env roads).
    unfold replies, external_calls, info_logs, error_logs in *.
    rewrite !flat_map_app, !filter_app, IH1, IH2, IH3.
    unfold fetch_events, fetched.
    destruct (fetch_outcome env c0 c1) as [[td|]|e]; cbn; repeat split; lia.
Qed.

(** X13: a sweep talks to the directions service only: it sends no chat
    reply and no geocoding request, and it leaves the stored origin alone.
    At level info it logs the opening line and then one "Stored traffic
    data for <road>" line per stored row, in order; it logs at most one
    error line per failed road. *)
Theorem collect_traffic_data_logs (env : Env) (roads : Roads) (s : BotState) :
  exists evs,
    trace (snd (collect_traffic_data roads env s)) = trace s ++ evs /\
    user_data (snd (collect_traffic_data roads env s)) = user_data s /\
    replies evs = [] /\
    external_calls evs
    = map (fun road => EvDirections (fst (road_request road)) (snd (road_request road)))
          roads /\
    info_logs evs
    = "Collecting traffic data for major roads..."
      :: map (fun name => ("Stored traffic data for " ++ name)%string)
             (successful_road_names env roads) /\
    (List.length (error_logs evs) <= List.length (failed_roads env roads))%nat.
Proof.
  rewrite collect_traffic_data_trace.
  destruct (sweep_events_logs env roads) as (H1 & H2 & H3 & H4).
  eexists. split; [reflexivity|]. split; [reflexivity|].
  cbn [replies external_calls info_logs error_logs flat_map filter app].
  fold (replies (sweep_events env roads)).
  fold (external_calls (sweep_events env roads)).
  fold (info_logs (sweep_events env roads)).
  fold (error_logs (sweep_events env roads)).
  rewrite H1, H2, H3. repeat split. exact H4.
Qed.

(** ** Statistics *)

(** The whole of [stats_command], by the rows its query selects. *)
Lemma stats_command_run (env : Env) (s : BotState) (sqlite_now : Z) :
  let week := filter (in_last_week sqlite_now) (traffic_history s) in
  exists msg,
    stats_command sqlite_now env s = (Ok tt, add_events s [EvReply msg]) /\
    match week with
    | [] => msg = MsgNoStatistics
    | _ :: _ =>
      exists avg_mins pct,
        msg = MsgStatistics (Z.of_nat (List.length week)) avg_mins
                (Z.of_nat (List.length (filter is_severe week))) pct
    end.
Proof.
  cbv zeta. unfold stats_command, bind, read_history.
  change (fun r : HistoryRow => sqlite_cutoff sqlite_now <? timestamp (observation r))
    with (in_last_week sqlite_now).
  change (fun r : HistoryRow => String.eqb (severity (observation r)) "severe")
    with is_severe.
  destruct (filter (in_last_week sqlite_now) (traffic_history s)) as [|r week] eqn:E.
  - eexists. split; reflexivity.
  - assert (Hpos : (0 <? Z.of_nat (List.length (r :: week))) = true)
      by (apply Z.ltb_lt; cbn [List.length]; lia).
    rewrite Hpos. eexists. split; [reflexivity|]. do 2 eexists. reflexivity.
Qed.

Lemma filter_length_le {A} (f : A -> bool) (l : list A) :
  (List.length (filter f l) <= List.length l)%nat.
Proof.
  induction l as [|x l IH]; cbn; [lia|]. destruct (f x); cbn; lia.
Qed.

(** X14: [stats_command] never raises, sends exactly one reply and changes
    nothing.  Its query selects the rows whose timestamp, the text of
    Python's local clock, is after the text of SQLite's UTC clock seven days
    earlier in whole seconds.  It answers that there is no data exactly
    when no row is selected; otherwise it reports the number of selected
    rows, at least 1, and a severe count between 0 and that number.  A row
    stored with a timestamp after that cut-off raises the reported total by
    one. *)
Theorem stats_command_counts (env : Env) (s : BotState) (sqlite_now : Z) :
  let week := filter (in_last_week sqlite_now) (traffic_history s) in
  (exists msg,
      stats_command sqlite_now env s = (Ok tt, add_events s [EvReply msg]) /\
      (msg = MsgNoStatistics <-> week = []) /\
      (forall total avg_mins severe pct,
          msg = MsgStatistics total avg_mins severe pct ->
          total = Z.of_nat (List.length week) /\ 1 <= total /\ 0 <= severe <= total)) /\
  (forall td,
      sqlite_now * 1000000 - timedelta_days 7 < timestamp td ->
      exists avg_mins severe pct,
        fst (stats_command sqlite_now env
               (set_history s (store_traffic_data (traffic_history s) td)))
          = Ok tt /\
        replies (trace (snd (stats_command sqlite_now env
                   (set_history s (store_traffic_data (traffic_history s) td)))))
        = replies (trace s)
          ++ [MsgStatistics (Z.of_nat (List.length week) + 1) avg_mins severe pct]).
Proof.
  cbv zeta. split.
  - destruct (stats_command_run env s sqlite_now) as (msg & Hrun & Hmsg).
    cbv zeta in Hmsg.
    exists msg. split; [exact Hrun|].
    destruct (filter (in_last_week sqlite_now) (traffic_history s)) as [|r week].
    + subst msg. split; [tauto|]. intros ? ? ? ? [=].
    + destruct Hmsg as (avg_mins & pct & ->). split.
      * split; discriminate.
      * intros total a sv p E.
        assert (E1 : total = Z.of_nat (List.length (r :: week))) by congruence.
        assert (E3 : sv = Z.of_nat (List.length (filter is_severe (r :: week))))
          by congruence.
        clear E. pose proof (filter_length_le is_severe (r :: week)) as H.
        set (k := List.length (filter is_severe (r :: week))) in *.
        cbn [List.length] in *. lia.
  - intros td Hin.
    assert (Hsel : in_last_week sqlite_now
                     {| id := next_id (traffic_history s); observation := td |} = true).
    { unfold in_last_week, sqlite_cutoff. cbn [observation]. now apply Z.ltb_lt. }
    destruct (stats_command_run env
                (set_history s (store_traffic_data (traffic_history s) td)) sqlite_now)
      as (msg & Hrun & Hmsg).
    cbv zeta in Hmsg. cbn [set_history traffic_history] in Hmsg.
    unfold store_traffic_data in Hmsg at 1. rewrite filter_app in Hmsg.
    cbn [filter] in Hmsg. rewrite Hsel in Hmsg.
    destruct (filter (in_last_week sqlite_now) (traffic_history s) ++ _)
      as [|r week] eqn:E.
    { apply app_eq_nil in E. destruct E as [_ E]. discriminate E. }
    destruct Hmsg as (avg_mins & pct & ->).
    rewrite Hrun. cbn [fst snd add_events set_history trace].
    do 3 eexists. split; [reflexivity|].
    rewrite replies_app. cbn [replies flat_map app]. do 3 f_equal.
    unfold store_traffic_data. rewrite filter_app, length_app.
    cbn [filter]. rewrite Hsel. cbn [List.length]. lia.
Qed.

(** A row stamped by the local clock at 1000 microseconds, counted by a
    query that runs while SQLite's UTC clock, seven hours behind, reads
    -25200 seconds. *)
Lemma stats_command_counts_witness :
  exists avg_mins severe pct,
    fst (stats_command (- 25200) (constant_env HttpFailed)
           (set_history history_state
              (store_traffic_data (traffic_history history_state)
                 (sample_observation 700 1000))))
      = Ok tt /\
    replies (trace (snd (stats_command (- 25200) (constant_env HttpFailed)
               (set_history history_state
                  (store_traffic_data (traffic_history history_state)
                     (sample_observation 700 1000))))))
    = replies (trace history_state)
      ++ [MsgStatistics
            (Z.of_nat (List.length
               (filter (in_last_week (- 25200)) (traffic_history history_state))) + 1)
            avg_mins severe pct].
Proof.
  apply (proj2 (stats_command_counts (constant_env HttpFailed) history_state (- 25200))
           (sample_observation 700 1000)).
  cbn. lia.
Defined.

(** ** What the table of a running bot always satisfies *)

Lemma road_observations_fetched (env : Env) (roads : Roads) :
  Forall (fun o => well_formed_observation o /\ timestamp o = now env)
         (road_observations env roads).
Proof.
  apply Forall_forall. intros o Ho.
  apply road_observations_in in Ho. destruct Ho as (road & _ & Hf).
  destruct (fetched_some_inv _ _ _ _ Hf)
    as (? & ? & ? & ? & ? & _ & _ & _ & _ & _ & _ & _ & Hts & Hwf).
  now split.
Qed.

(** Every operation stores a list of fetched Observations, possibly empty,
    and does nothing else to the table. *)
Lemma run_op_stores (op : Op) (env : Env) (s : BotState) :
  exists obs,
    traffic_history (snd (run_op op env s)) = record_all (traffic_history s) obs /\
    Forall (fun o => well_formed_observation o /\ timestamp o = now env) obs.
Proof.
  destruct op as [| |sqlite_now|loc|text|]; cbn [run_op].
  - exists []. split; [reflexivity|constructor].
  - destruct (traffic_command_run env major_roads s) as (evs & Hrun & _).
    rewrite Hrun. exists (road_observations env major_roads).
    split; [reflexivity|apply road_observations_fetched].
  - destruct (stats_command_run env s sqlite_now) as (msg & Hrun & _).
    rewrite Hrun. exists []. split; [reflexivity|constructor].
  - exists []. split; [reflexivity|constructor].
  - destruct (dict_contains (user_data s) "user_location") eqn:Hc.
    + destruct (dict_contains_getitem _ _ Hc) as (origin & Horigin).
      rewrite (handle_text_run env s text origin Horigin).
      destruct (geocoded env text) as [dest|];
        [|exists []; split; [reflexivity|constructor]].
      destruct (fetched env origin dest) as [td|] eqn:Hf;
        [|exists []; split; [reflexivity|constructor]].
      exists [td]. split; [reflexivity|].
      destruct (fetched_some_inv _ _ _ _ Hf)
        as (? & ? & ? & ? & ? & _ & _ & _ & _ & _ & _ & _ & Hts & Hwf).
      constructor; [split; assumption|constructor].
    + assert (Hrun : handle_text text env s
                     = (Ok tt, add_events s [EvReply MsgShareLocationFirst])).
      { unfold handle_text, bind, read_user_data. rewrite Hc. reflexivity. }
      rewrite Hrun. exists []. split; [reflexivity|constructor].
  - rewrite collect_traffic_data_trace. exists (road_observations env major_roads).
    split; [reflexivity|apply road_observations_fetched].
Qed.

Lemma max_of_first_keys (n a : nat) :
  fold_right Z.max 0 (map Z.of_nat (seq a n))
  = match n with
    | O => 0
    | S _ => Z.of_nat (a + n - 1)
    end.
Proof.
  revert a. induction n as [|n IH]; intros a; [reflexivity|].
  cbn [seq map fold_right]. rewrite IH. destruct n; lia.
Qed.

Lemma ids_sequential_store (db : Table) (td : TrafficData) :
  ids_sequential db -> ids_sequential (store_traffic_data db td).
Proof.
  unfold ids_sequential, store_traffic_data, next_id. intros H.
  rewrite map_app, length_app, H. cbn [map id List.length].
  rewrite Nat.add_1_r, seq_S, map_app, max_of_first_keys. cbn [map].
  do 2 f_equal. destruct (List.length db); lia.
Qed.

Lemma table_invariant_record_all (db : Table) (obs : list TrafficData) :
  table_invariant db -> Forall well_formed_observation obs ->
  table_invariant (record_all db obs).
Proof.
  revert db. induction obs as [|o obs IH]; intros db Hinv Hobs; [exact Hinv|].
  cbn [record_all fold_left]. fold (record_all (store_traffic_data db o) obs).
  inversion Hobs as [|? ? Ho Hobs']; subst.
  apply IH; [|exact Hobs']. destruct Hinv as (Hids & Hwf). split.
  - now apply ids_sequential_store.
  - unfold store_traffic_data. rewrite map_app. apply Forall_app. split; [exact Hwf|].
    constructor; [exact Ho|constructor].
Qed.

Lemma table_invariant_run_op (op : Op) (env : Env) (s : BotState) :
  table_invariant (traffic_history s) ->
  table_invariant (traffic_history (snd (run_op op env s))).
Proof.
  intros Hinv. destruct (run_op_stores op env s) as (obs & -> & Hobs).
  apply table_invariant_record_all; [exact Hinv|].
  eapply Forall_impl; [|exact Hobs]. now intros o [Hwf _].
Qed.

(** X15: every operation of the bot keeps the table well formed: the keys
    are 1, 2, ..., n in the order of insertion, and every row has a nonzero
    baseline duration and the severity label the classifier gives its two
    durations.  So this holds of the table of a bot started on an empty
    database after any run of operations, and no key occurs twice. *)
Theorem table_invariant_kept :
  (forall op env s,
      table_invariant (traffic_history s) ->
      table_invariant (traffic_history (snd (run_op op env s)))) /\
  (forall ops,
      table_invariant (traffic_history (run_ops ops initial_state)) /\
      NoDup (map id (traffic_history (run_ops ops initial_state)))).
Proof.
  split; [exact table_invariant_run_op|].
  assert (Hrun : forall ops s, table_invariant (traffic_history s) ->
                               table_invariant (traffic_history (run_ops ops s))).
  { induction ops as [|[op env] ops IH]; intros s Hinv; cbn [run_ops]; [exact Hinv|].
    apply IH. now apply table_invariant_run_op. }
  intros ops.
  assert (Hinv : table_invariant (traffic_history (run_ops ops initial_state))).
  { apply Hrun. split; [reflexivity|constructor]. }
  split; [exact Hinv|]. destruct Hinv as (Hids & _). rewrite Hids.
  apply Finite.Injective_map_NoDup; [|apply seq_NoDup].
  intros x y. apply Nat2Z.inj.
Qed.

Lemma table_invariant_kept_witness :
  table_invariant
    (traffic_history (snd (run_op OpSweep thamrin_down_env initial_state))).
Proof.
  apply (proj1 table_invariant_kept OpSweep thamrin_down_env initial_state).
  split; [reflexivity|constructor].
Defined.

(** ** The labels in whole seconds *)

Lemma band_cases (r : Q) :
  (band r = "normal" <-> (r <= 15 # 100)%Q) /\
  (band r = "moderate" <-> (15 # 100 < r)%Q /\ (r <= 30 # 100)%Q) /\
  (band r = "heavy" <-> (30 # 100 < r)%Q /\ (r <= 60 # 100)%Q) /\
  (band r = "severe" <-> (60 # 100 < r)%Q).
Proof.
  unfold band.
  destruct (Qle_bool r (15 # 100)) eqn:E1;
    [apply Qle_bool_iff in E1|apply Qle_bool_false_lt in E1];
  (destruct (Qle_bool r (30 # 100)) eqn:E2;
    [apply Qle_bool_iff in E2|apply Qle_bool_false_lt in E2]);
  (destruct (Qle_bool r (60 # 100)) eqn:E3;
    [apply Qle_bool_iff in E3|apply Qle_bool_false_lt in E3]);
  repeat split; try discriminate; try (intros; lra); intros; exfalso; lra.
Qed.

Lemma ratio_le_iff (dit dn n : Z) :
  0 < dn ->
  (inject_Z (dit - dn) / inject_Z dn <= n # 100)%Q <-> 100 * dit <= (100 + n) * dn.
Proof.
  intros Hdn. destruct dn as [|p|p]; try lia.
  unfold Qle, Qdiv, Qmult, Qinv, inject_Z. cbn [Qnum Qden].
  rewrite Pos.mul_1_l. lia.
Qed.

Lemma ratio_lt_iff (dit dn n : Z) :
  0 < dn ->
  (n # 100 < inject_Z (dit - dn) / inject_Z dn)%Q <-> (100 + n) * dn < 100 * dit.
Proof.
  intros Hdn. destruct dn as [|p|p]; try lia.
  unfold Qlt, Qdiv, Qmult, Qinv, inject_Z. cbn [Qnum Qden].
  rewrite Pos.mul_1_l. lia.
Qed.

(** X17: for an Observation the fetcher returns with a positive baseline,
    the label reads off the two durations in whole seconds: normal up to
    1.15 times the baseline, moderate up to 1.30 times, heavy up to 1.60
    times, severe above; a route that is no slower than its baseline is
    normal. *)
Theorem get_traffic_data_severity_in_seconds (env : Env) (s : BotState)
    (origin destination : Dict) (td : TrafficData) :
  fst (get_traffic_data origin destination env s) = Ok (Some td) ->
  0 < duration_normal td ->
  let dit := duration_in_traffic td in
  let dn := duration_normal td in
  (severity td = "normal" <-> 100 * dit <= 115 * dn) /\
  (severity td = "moderate" <-> 115 * dn < 100 * dit <= 130 * dn) /\
  (severity td = "heavy" <-> 130 * dn < 100 * dit <= 160 * dn) /\
  (severity td = "severe" <-> 160 * dn < 100 * dit) /\
  (dit <= dn -> severity td = "normal").
Proof.
  intros Hfetch Hdn. cbv zeta.
  rewrite get_traffic_data_run in Hfetch. cbn [fst] in Hfetch. injection Hfetch as Hfetch.
  destruct (fetched_some_inv _ _ _ _ Hfetch)
    as (? & ? & ? & ? & ? & _ & _ & _ & _ & _ & _ & _ & _ & (_ & _ & Hsev)).
  rewrite calculate_severity_band in Hsev. injection Hsev as Hsev.
  destruct (band_cases (inject_Z (duration_in_traffic td - duration_normal td)
                        / inject_Z (duration_normal td)))
    as (Hn & Hm & Hh & Hs).
  rewrite Hsev in Hn, Hm, Hh, Hs.
  rewrite (ratio_le_iff _ _ 15 Hdn) in Hn.
  rewrite (ratio_lt_iff _ _ 15 Hdn), (ratio_le_iff _ _ 30 Hdn) in Hm.
  rewrite (ratio_lt_iff _ _ 30 Hdn), (ratio_le_iff _ _ 60 Hdn) in Hh.
  rewrite (ratio_lt_iff _ _ 60 Hdn) in Hs.
  change (100 + 15) with 115 in Hn, Hm.
  change (100 + 30) with 130 in Hm, Hh.
  change (100 + 60) with 160 in Hh, Hs.
  split; [exact Hn|]. split; [exact Hm|]. split; [exact Hh|]. split; [exact Hs|].
  intros Hle. apply Hn. lia.
Qed.

Lemma get_traffic_data_severity_in_seconds_witness :
  "heavy" = "heavy" <-> 130 * 900 < 100 * 1200 <= 160 * 900.
Proof.
  refine (proj1 (proj2 (proj2 (get_traffic_data_severity_in_seconds
            (constant_env (HttpJson (ok_response 1200 900))) initial_state
            sudirman_origin sudirman_destination
            {| location := "-6.2088,106.8456--6.2297,106.8269";
               duration_in_traffic := 1200;
               duration_normal := 900;
               timestamp := 1000;
               severity := "heavy" |} _ _)))).
  - reflexivity.
  - reflexivity.
Defined.

(** ** The route query when a stage fails *)

(** X18: with an origin stored, a destination that does not resolve is
    answered with "destination not found" and no directions request goes
    out; a destination that resolves but whose route cannot be fetched is
    answered with "route unavailable".  In both cases the table is left as
    it was. *)
Theorem handle_text_stage_failures (env : Env) (s : BotState) (text : string)
    (origin : Dict) :
  dict_getitem (user_data s) "user_location" = Ok origin ->
  (fst (geocode_address text env s) = Ok None ->
   exists evs,
     handle_text text env s = (Ok tt, add_events s evs) /\
     replies evs = [MsgDestinationNotFound] /\
     directions_requests evs = []) /\
  (forall dest,
      fst (geocode_address text env s) = Ok (Some dest) ->
      fst (get_traffic_data origin dest env s) = Ok None ->
      exists evs,
        handle_text text env s = (Ok tt, add_events s evs) /\
        replies evs = [MsgRouteUnavailable] /\
        directions_requests evs = [(coord_param origin, coord_param dest)]).
Proof.
  intros Horigin. rewrite (handle_text_run env s text origin Horigin). split.
  - rewrite geocode_address_run. cbn [fst]. intros [= ->].
    eexists. split; [reflexivity|]. split.
    + now rewrite replies_app, replies_geocode.
    + rewrite directions_requests_app. unfold geocode_events. cbn.
      now destruct (geocode_outcome env text).
  - intros dest. rewrite geocode_address_run, get_traffic_data_run. cbn [fst].
    intros [= ->] [= ->].
    eexists. split; [reflexivity|]. split.
    + now rewrite !replies_app, replies_geocode, replies_fetch.
    + rewrite !directions_requests_app, directions_requests_fetch.
      unfold geocode_events. cbn. now destruct (geocode_outcome env text).
Qed.

Lemma handle_text_stage_failures_witness :
  exists evs,
    handle_text "Monas" (resolving_env sudirman_destination HttpFailed) located_state
    = (Ok tt, add_events located_state evs) /\
    replies evs = [MsgRouteUnavailable] /\
    directions_requests evs
    = [(coord_param sudirman_origin, coord_param sudirman_destination)].
Proof.
  refine (proj2 (handle_text_stage_failures
                   (resolving_env sudirman_destination HttpFailed) located_state
                   "Monas" sudirman_origin _) sudirman_destination _ _); reflexivity.
Defined.
